(** * Backend_TrueNumber: the admin controller and the user model

    A shallow embedding of [src/controlleurs/admin.controlleur.ts] (the five
    admin handlers) and of the user model (schema, pre-save hook and
    [comparePassword]), with the properties of the specification stated and
    proved over it.

    Conventions of the embedding:
    - a JavaScript string is a [string] holding its UTF-8 encoding; a value
      that may be [undefined] is an [option];
    - a JavaScript number that the handlers compute with is an integer, kept
      as a [Z] with its exact value; [NaN] is [None].  JavaScript keeps such
      a value exactly as long as it is a safe integer (magnitude at most
      2^53 - 1) and rounds it beyond: what is proved of the numbers of a
      request is proved of requests whose page, limit and offset are safe
      integers, see [isSafeInteger] and [exactPaging];
    - a date is its millisecond timestamp;
    - the body of a creation request is taken at the six fields the handler
      reads from it; the body of an update request, which the handler
      forwards whole, is the values it gives to paths of the schema, typed
      as [IUser] types them, together with whatever else it holds (update
      operators such as [$set]), whose meaning is the store's;
    - the document store (Mongoose over MongoDB) and the hash library
      (bcryptjs) are collaborators of the code: the store is a pair of
      collections held as lists, threaded through a small state and
      exception monad together with the trace of the store calls made; what
      the store leaves open (the order of games created at the same time,
      the size of a single batch, the meaning of update operators) is an
      interface, [StoreBehaviour]. *)

From Stdlib Require Import ZArith QArith Qround.
From stdpp Require Import base decidable option list strings sorting.
From Stdlib Require Import Ascii String.

Local Open Scope string_scope.
Local Open Scope list_scope.
Local Open Scope Z_scope.

(** ** JavaScript primitives used by the handlers *)

Module JS.

(** Truthiness of a string that may be undefined: [undefined] and the empty
    string are falsy, every other string is truthy. *)
Definition truthy (v : option string) : bool :=
  match v with
  | None => false
  | Some s => negb (String.eqb s "")
  end.

(** [ToString] of a value typed [string | undefined]. *)
Definition toString (v : option string) : string :=
  match v with
  | None => "undefined"
  | Some s => s
  end.

(** White space and line terminators skipped by [parseInt], as UTF-8.
    One byte: TAB, LF, VT, FF, CR, SP. *)
Definition isWhiteSpace (c : ascii) : bool :=
  let n := nat_of_ascii c in
  (Nat.eqb n 9 || Nat.eqb n 10 || Nat.eqb n 11 || Nat.eqb n 12
   || Nat.eqb n 13 || Nat.eqb n 32)%bool.

(** Two bytes: U+00A0 (C2 A0). *)
Definition isWhiteSpace2 (c1 c2 : ascii) : bool :=
  (Nat.eqb (nat_of_ascii c1) 194 && Nat.eqb (nat_of_ascii c2) 160)%bool.

(** Three bytes: U+1680 (E1 9A 80), U+2000 to U+200A (E2 80 80 to E2 80 8A),
    U+2028 and U+2029 (E2 80 A8, E2 80 A9), U+202F (E2 80 AF), U+205F
    (E2 81 9F), U+3000 (E3 80 80), U+FEFF (EF BB BF). *)
Definition isWhiteSpace3 (c1 c2 c3 : ascii) : bool :=
  let n1 := nat_of_ascii c1 in
  let n2 := nat_of_ascii c2 in
  let n3 := nat_of_ascii c3 in
  (Nat.eqb n1 225 && Nat.eqb n2 154 && Nat.eqb n3 128
   || Nat.eqb n1 226 && Nat.eqb n2 128
      && (Nat.leb 128 n3 && Nat.leb n3 138
          || Nat.eqb n3 168 || Nat.eqb n3 169 || Nat.eqb n3 175)
   || Nat.eqb n1 226 && Nat.eqb n2 129 && Nat.eqb n3 159
   || Nat.eqb n1 227 && Nat.eqb n2 128 && Nat.eqb n3 128
   || Nat.eqb n1 239 && Nat.eqb n2 187 && Nat.eqb n3 191)%bool.

Fixpoint skipWhiteSpace (s : string) : string :=
  match s with
  | EmptyString => s
  | String c1 r1 =>
      if isWhiteSpace c1 then skipWhiteSpace r1
      else
        match r1 with
        | EmptyString => s
        | String c2 r2 =>
            if isWhiteSpace2 c1 c2 then skipWhiteSpace r2
            else
              match r2 with
              | EmptyString => s
              | String c3 r3 =>
                  if isWhiteSpace3 c1 c2 c3 then skipWhiteSpace r3 else s
              end
        end
  end.

(** Value of a character as a digit (0-9, a-z, A-Z). *)
Definition digitValue (c : ascii) : option Z :=
  let n := Z.of_nat (nat_of_ascii c) in
  if ((48 <=? n) && (n <=? 57))%Z then Some (n - 48)
  else if ((97 <=? n) && (n <=? 122))%Z then Some (n - 87)
  else if ((65 <=? n) && (n <=? 90))%Z then Some (n - 55)
  else None.

(** The longest prefix of radix-[R] digits, read as a number; [acc] is the
    value read so far, [None] while no digit has been read. *)
Fixpoint parseDigits (R : Z) (s : string) (acc : option Z) : option Z :=
  match s with
  | String c r =>
      match digitValue c with
      | Some d =>
          if (d <? R)%Z then parseDigits R r (Some (R * default 0 acc + d))
          else acc
      | None => acc
      end
  | EmptyString => acc
  end.

(** [parseInt(string)] with no radix argument: leading white space, an
    optional sign, an optional [0x]/[0X] prefix, then the digits.  [None] is
    [NaN]; the result is the exact value of the digits, which is also the
    JavaScript number when it is a safe integer. *)
Definition parseInt (string : option string) : option Z :=
  let inputS := skipWhiteSpace (toString string) in
  let '(sign, rest) :=
    match inputS with
    | String "-" r => (-1, r)
    | String "+" r => (1, r)
    | _ => (1, inputS)
    end in
  let '(R, digits) :=
    match rest with
    | String "0" (String "x" r) => (16, r)
    | String "0" (String "X" r) => (16, r)
    | _ => (10, rest)
    end in
  match parseDigits R digits None with
  | None => None
  | Some m => Some (sign * m)
  end.

(** [a || b] where [a] is a number: [NaN] and [0] are falsy. *)
Definition or (a : option Z) (b : Z) : Z :=
  match a with
  | Some n => if (n =? 0)%Z then b else n
  | None => b
  end.

(** [Math.ceil(a / b)] for integers [a] and [b], [b] not zero. *)
Definition ceil_div (a b : Z) : Z :=
  Qceiling (Qdiv (inject_Z a) (inject_Z b)).

Definition MAX_SAFE_INTEGER : Z := 2 ^ 53 - 1.

Definition isSafeInteger (n : Z) : Prop :=
  - MAX_SAFE_INTEGER <= n <= MAX_SAFE_INTEGER.

End JS.

(** ** Collaborators of the code *)

(** Object identifiers of the store.  [castObjectId] is the cast Mongoose
    applies to an identifier received as a string (a route parameter); it
    fails on a string that denotes no identifier. *)
Class ObjectIds := {
  ObjectId : Type;
  ObjectId_eq_dec :: EqDecision ObjectId;
  castObjectId : string → option ObjectId
}.

(** The digest at the heart of bcryptjs: from the 29-character salt string
    (revision, cost and 22 characters of salt) and the password to the 31
    characters that follow the salt in a hash. *)
Class BcryptCore := {
  crypt_raw : string → string → string
}.

(** What a handler draws from its environment: the clock behind [Date.now],
    the identifier given to a new document, the salt randomness drawn by
    [bcrypt.hash]. *)
Record Env `{ObjectIds} := {
  now : Z;
  newObjectId : ObjectId;
  saltRandom : string
}.

(** *** bcryptjs *)

Module bcrypt.
Section bcrypt.
Context `{BcryptCore}.

Definition digit (n : nat) : ascii := ascii_of_nat (48 + n).

(** The cost as two decimal digits. *)
Definition twoDigits (rounds : nat) : string :=
  String (digit (rounds / 10)) (String (digit (rounds mod 10)) "").

(** [genSalt(rounds)]: revision, cost, then 22 characters that encode 16
    random bytes (the revision letter is that of bcryptjs 2). *)
Definition genSalt (rounds : nat) (rnd : string) : string :=
  "$2a$" +:+ twoDigits rounds +:+ "$" +:+ rnd.

(** [hash(s, salt)] with a salt string: the salt followed by the digest. *)
Definition hashWithSalt (s salt : string) : string :=
  salt +:+ crypt_raw salt s.

(** [hash(s, rounds)] with a cost: a fresh salt is generated first. *)
Definition hash (s : string) (rounds : nat) (rnd : string) : string :=
  hashWithSalt s (genSalt rounds rnd).

(** [compare(s, hash)]: a hash that is not 60 characters long matches
    nothing; otherwise [s] is hashed under the salt the hash starts with
    and the two hashes are compared. *)
Definition compare (s hash : string) : bool :=
  if negb (Nat.eqb (String.length hash) 60) then false
  else String.eqb (hashWithSalt s (substring 0 29 hash)) hash.

End bcrypt.
End bcrypt.

(** ** Data model *)

Section Model.
Context `{ObjectIds} `{BcryptCore}.

(** A stored user: the paths of [UserSchema], typed as in [IUser]. *)
Record IUser := {
  _id : ObjectId;
  firstName : string;
  lastName : string;
  email : string;
  phone : string;
  password : string;
  role : string;
  points : Z;
  bio : option string;
  createdAt : Z
}.

(** [Partial<IUser>] without the identifier: the fields handed to the
    [User] constructor, the fields of a document in memory, and the body of
    an update request.  [None] is an absent (undefined) field. *)
Record PartialUser := {
  p_firstName : option string;
  p_lastName : option string;
  p_email : option string;
  p_phone : option string;
  p_password : option string;
  p_role : option string;
  p_points : option Z;
  p_bio : option string;
  p_createdAt : option Z
}.

(** A plain object made from a user, as sent in a response; the password
    key may have been removed or projected out. *)
Record UserObject := {
  o_id : ObjectId;
  o_firstName : string;
  o_lastName : string;
  o_email : string;
  o_phone : string;
  o_password : option string;
  o_role : string;
  o_points : Z;
  o_bio : option string;
  o_createdAt : Z
}.

(** Modelled from the spec: the Game model ([modeles/game.modele]) is not
    among the sources; a game is an owning user reference (nullable), a
    round number, a result, the points change of the round, the resulting
    balance and a creation timestamp. *)
Record Game := {
  g_id : ObjectId;
  userId : option ObjectId;
  number : Z;
  result : string;
  pointsChange : Z;
  balanceAfter : Z;
  g_createdAt : Z
}.

(** The owning user as populated with the paths ['firstName lastName'], and
    as rebuilt by the handler. *)
Record UserRef := {
  ref_id : ObjectId;
  ref_firstName : string;
  ref_lastName : string
}.

(** A game after [populate('userId', ...)] and [lean()]. *)
Record PopulatedGame := {
  pg_game : Game;
  pg_userId : option UserRef
}.

Record FormattedGame := {
  fg_id : ObjectId;
  user : option UserRef;
  fg_number : Z;
  fg_result : string;
  fg_pointsChange : Z;
  newBalance : Z;
  fg_createdAt : Z
}.

Record Pagination := {
  total : Z;
  page : Z;
  pages : Z;
  limit : Z
}.

Inductive Payload :=
| GamesData (games : list FormattedGame) (pagination : Pagination)
| UsersData (users : list UserObject)
| UserData (u : UserObject).

(** Modelled from the spec: the [ApiResponse] class
    ([utilitaires/reponseApi]) is not among the sources; it is the envelope
    [{statusCode, message, data?}]. *)
Record ApiResponse := {
  statusCode : Z;
  message : string;
  data : option Payload
}.

(** [res.status(status).json(body)]. *)
Record Response := {
  status : Z;
  json : ApiResponse
}.

Definition respond (code : Z) (msg : string) (d : option Payload) : Response :=
  {| status := code;
     json := {| statusCode := code; message := msg; data := d |} |}.

End Model.

(** ** What the store leaves open *)

(** [sort({ createdAt: -1 })]: newest first. *)
Definition newer_first `{ObjectIds} (a b : Game) : Prop :=
  g_createdAt b ≤ g_createdAt a.

Global Instance newer_first_dec `{ObjectIds} a b : Decision (newer_first a b).
Proof. unfold newer_first. apply _. Defined.

Global Instance newer_first_total `{ObjectIds} : Total newer_first :=
  λ a b, Z.le_ge_cases (g_createdAt b) (g_createdAt a).

Global Instance newer_first_trans `{ObjectIds} : Transitive newer_first :=
  λ a b c Hab Hbc, Z.le_trans _ _ _ Hbc Hab.

(** The behaviour of the store that neither the handlers nor the schema
    decide:
    - [sortGames skip limit gs] is the order in which the query with this
      skip and limit finds the games [gs] sorted by [createdAt] descending:
      some arrangement of [gs] that is newest first; games created at the
      same time come in an order the store chooses, which may differ from
      one query to the next;
    - [singleBatch l] is what a single batch holds of the documents [l], the
      answer to a query with a negative limit: the first of them, up to a
      number the server chooses;
    - [OtherKeys] are the keys of an update document other than plain values
      for the nine paths of the schema (the update operators [$set], [$inc],
      [$unset] and the rest); [castOther] tells whether Mongoose can cast a
      document with such keys, [applyOther] is the user the server makes of
      a stored user under it, or [None] when the server refuses the update;
      the identifier of a document is immutable. *)
Class StoreBehaviour `{ObjectIds} := {
  sortGames : Z → Z → list Game → list Game;
  sortGames_sorted :
    ∀ skip limit gs, StronglySorted newer_first (sortGames skip limit gs);
  sortGames_perm : ∀ skip limit gs, sortGames skip limit gs ≡ₚ gs;
  singleBatch : list Game → list Game;
  singleBatch_prefix : ∀ l, singleBatch l `prefix_of` l;
  OtherKeys : Type;
  castOther : OtherKeys → PartialUser → bool;
  applyOther : OtherKeys → PartialUser → IUser → option IUser;
  applyOther_id : ∀ o f u u', applyOther o f u = Some u' → _id u' = _id u
}.

(** *** The store, the calls made to it, and the monad of the handlers *)

Section Monad.
Context `{ObjectIds} `{BcryptCore} `{!StoreBehaviour}.

(** The body of an update request, which is also the update document the
    handler hands to the store: the values it gives to paths of the schema
    ([None]: the key is absent), and what else it holds, if anything. *)
Record UpdateBody := {
  b_fields : PartialUser;
  b_other : option OtherKeys
}.

Record DB := {
  Users : list IUser;
  Games : list Game
}.

Inductive StoreCall :=
| Call_Game_find (skip limit : Z)
| Call_Game_countDocuments
| Call_User_find
| Call_User_findOne (email : string)
| Call_User_save (id : ObjectId)
| Call_User_findByIdAndUpdate (id : string) (update : UpdateBody)
| Call_User_findByIdAndDelete (id : string).

Record World := {
  db : DB;
  calls : list StoreCall
}.

Inductive Outcome (A : Type) :=
| Return (a : A)
| Throw.
Global Arguments Return {A} a.
Global Arguments Throw {A}.

(** A computation of the handlers: reads and writes the store, records its
    store calls, and returns or throws. *)
Definition M (A : Type) : Type := World → Outcome A * World.

Definition ret {A} (a : A) : M A := λ w, (Return a, w).

Definition bind {A B} (m : M A) (k : A → M B) : M B :=
  λ w, match m w with
       | (Return a, w') => k a w'
       | (Throw, w') => (Throw, w')
       end.

Global Instance M_ret : MRet M := @ret.
Global Instance M_bind : MBind M := λ A B k m, bind m k.

Definition throw {A} : M A := λ w, (Throw, w).

(** [try { m } catch (error) { handler }]. *)
Definition try_catch {A} (m : M A) (handler : M A) : M A :=
  λ w, match m w with
       | (Return a, w') => (Return a, w')
       | (Throw, w') => handler w'
       end.

(** [await Promise.all([m1, m2])]: both are started; the join throws if
    either throws. *)
Definition Promise_all {A B} (m1 : M A) (m2 : M B) : M (A * B) :=
  λ w, let '(r1, w1) := m1 w in
       let '(r2, w2) := m2 w1 in
       match r1, r2 with
       | Return a, Return b => (Return (a, b), w2)
       | _, _ => (Throw, w2)
       end.

Definition called (c : StoreCall) : M unit :=
  λ w, (Return tt, {| db := db w; calls := calls w ++ [c] |}).

Definition getUsers : M (list IUser) := λ w, (Return (Users (db w)), w).
Definition getGames : M (list Game) := λ w, (Return (Games (db w)), w).

Definition putUsers (us : list IUser) : M unit :=
  λ w, (Return tt,
        {| db := {| Users := us; Games := Games (db w) |};
           calls := calls w |}).

End Monad.

(** ** The store primitives (Mongoose over MongoDB) *)

Section Store.
Context `{ObjectIds} `{BcryptCore} `{!StoreBehaviour}.

(** [findById] on the user collection. *)
Definition findById (oid : ObjectId) (us : list IUser) : option IUser :=
  List.find (λ u, bool_decide (_id u = oid)) us.

Definition replaceById (oid : ObjectId) (u' : IUser) (us : list IUser)
  : list IUser :=
  (λ u, if bool_decide (_id u = oid) then u' else u) <$> us.

Definition removeById (oid : ObjectId) (us : list IUser) : list IUser :=
  List.filter (λ u, negb (bool_decide (_id u = oid))) us.

(** The unique index on [email]: some other document holds this email. *)
Definition emailTaken (oid : ObjectId) (e : string) (us : list IUser) : bool :=
  existsb (λ u, negb (bool_decide (_id u = oid)) && String.eqb (email u) e) us.

(** [populate('userId', 'firstName lastName')]: a null reference stays
    null, and so does a reference to a user that is no longer stored. *)
Definition populate_userId (us : list IUser) (g : Game) : PopulatedGame :=
  {| pg_game := g;
     pg_userId :=
       match userId g with
       | None => None
       | Some oid =>
           match findById oid us with
           | None => None
           | Some u =>
               Some {| ref_id := _id u;
                       ref_firstName := firstName u;
                       ref_lastName := lastName u |}
           end
       end |}.

(** [limit(limit)]: a limit of zero is no limit; of a negative limit the
    driver sends the absolute value and asks for a single batch. *)
Definition applyLimit (limit : Z) (l : list Game) : list Game :=
  if (limit =? 0)%Z then l
  else if (0 <? limit)%Z then take (Z.to_nat limit) l
  else singleBatch (take (Z.to_nat (- limit)) l).

(** [Game.find().sort({createdAt: -1}).skip(skip).limit(limit)
    .populate(...).lean()].  The server rejects a negative skip. *)
Definition Game_find_page (skip limit : Z) : M (list PopulatedGame) :=
  called (Call_Game_find skip limit);;
  if (skip <? 0)%Z then throw
  else
    gs ← getGames;
    us ← getUsers;
    let sorted := sortGames skip limit gs in
    let skipped := drop (Z.to_nat skip) sorted in
    let limited := applyLimit limit skipped in
    mret (populate_userId us <$> limited).

(** [Game.countDocuments()]. *)
Definition Game_countDocuments : M Z :=
  called Call_Game_countDocuments;;
  gs ← getGames;
  mret (Z.of_nat (List.length gs)).

(** [toObject()]: every path of the document, the password included. *)
Definition toObject (u : IUser) : UserObject :=
  {| o_id := _id u; o_firstName := firstName u; o_lastName := lastName u;
     o_email := email u; o_phone := phone u;
     o_password := Some (password u); o_role := role u;
     o_points := points u; o_bio := bio u; o_createdAt := createdAt u |}.

(** [delete o.password], also the projections [{ password: 0 }] and
    ['-password']. *)
Definition delete_password (o : UserObject) : UserObject :=
  {| o_id := o_id o; o_firstName := o_firstName o;
     o_lastName := o_lastName o; o_email := o_email o;
     o_phone := o_phone o; o_password := None; o_role := o_role o;
     o_points := o_points o; o_bio := o_bio o;
     o_createdAt := o_createdAt o |}.

(** [User.find({}, { password: 0 })]. *)
Definition User_find_no_password : M (list UserObject) :=
  called Call_User_find;;
  us ← getUsers;
  mret ((λ u, delete_password (toObject u)) <$> us).

(** [User.findOne({ email })]; an undefined [email] leaves the filter
    empty. *)
Definition User_findOne (e : option string) : M (option IUser) :=
  called (Call_User_findOne (JS.toString e));;
  us ← getUsers;
  mret (List.find
          (λ u, match e with
                | Some s => String.eqb (email u) s
                | None => true
                end) us).

(** [$set] of the fields present in [upd]. *)
Definition apply_update (upd : PartialUser) (u : IUser) : IUser :=
  {| _id := _id u;
     firstName := default (firstName u) (p_firstName upd);
     lastName := default (lastName u) (p_lastName upd);
     email := default (email u) (p_email upd);
     phone := default (phone u) (p_phone upd);
     password := default (password u) (p_password upd);
     role := default (role u) (p_role upd);
     points := default (points u) (p_points upd);
     bio := match p_bio upd with Some b => Some b | None => bio u end;
     createdAt := default (createdAt u) (p_createdAt upd) |}.

(** A time value is a date when it is within 8.64e15 ms of the epoch. *)
Definition isDate (t : Z) : bool :=
  (-8640000000000000 <=? t)%Z && (t <=? 8640000000000000)%Z.

(** The cast Mongoose applies to an update document before it is sent:
    strings and numbers are cast to themselves, a [createdAt] that is no
    date is a cast error; a document with other keys is cast as the store
    behaves. *)
Definition castUpdate (update : UpdateBody) : bool :=
  match b_other update with
  | Some o => castOther o (b_fields update)
  | None =>
      match p_createdAt (b_fields update) with
      | Some t => isDate t
      | None => true
      end
  end.

(** The user an update document makes of a stored user: the plain fields
    are set; with other keys, what the store makes of them ([None] when the
    server refuses). *)
Definition updated (update : UpdateBody) (u : IUser) : option IUser :=
  match b_other update with
  | Some o => applyOther o (b_fields update) u
  | None => Some (apply_update (b_fields update) u)
  end.

(** [User.findByIdAndUpdate(id, update, { new: true, select: '-password' })]:
    the id and the update document are cast; no validator and no hook runs;
    the unique index on [email] is enforced. *)
Definition User_findByIdAndUpdate (id : string) (update : UpdateBody)
  : M (option UserObject) :=
  called (Call_User_findByIdAndUpdate id update);;
  match castObjectId id with
  | None => throw
  | Some oid =>
      if negb (castUpdate update) then throw
      else
        us ← getUsers;
        match findById oid us with
        | None => mret None
        | Some u =>
            match updated update u with
            | None => throw
            | Some u' =>
                if emailTaken oid (email u') us then throw
                else
                  putUsers (replaceById oid u' us);;
                  mret (Some (delete_password (toObject u')))
            end
        end
  end.

(** [User.findByIdAndDelete(id)]. *)
Definition User_findByIdAndDelete (id : string) : M (option IUser) :=
  called (Call_User_findByIdAndDelete id);;
  match castObjectId id with
  | None => throw
  | Some oid =>
      us ← getUsers;
      match findById oid us with
      | None => mret None
      | Some u => putUsers (removeById oid us);; mret (Some u)
      end
  end.

End Store.
(** ** The user model: documents, validation, the pre-save hook *)

Section UserModel.
Context `{ObjectIds} `{BcryptCore} `{!StoreBehaviour}.

(** A Mongoose document of the [User] model held in memory. *)
Record UserDocument := {
  d_id : ObjectId;
  d_fields : PartialUser;
  d_isNew : bool;
  d_modified : list string
}.

Definition isModified (d : UserDocument) (path : string) : bool :=
  bool_decide (path ∈ d_modified d).

Definition given {A} (path : string) (v : option A) : list string :=
  match v with Some _ => [path] | None => [] end.

Definition givenPaths (f : PartialUser) : list string :=
  given "firstName" (p_firstName f) ++ given "lastName" (p_lastName f)
  ++ given "email" (p_email f) ++ given "phone" (p_phone f)
  ++ given "password" (p_password f) ++ given "role" (p_role f)
  ++ given "points" (p_points f) ++ given "bio" (p_bio f)
  ++ given "createdAt" (p_createdAt f).

(** [new User(fields)]: a fresh identifier, the schema defaults ([role],
    [points], [createdAt]) for the paths not given, and every given path
    marked modified. *)
Definition new_User (env : Env) (fields : PartialUser) : UserDocument :=
  {| d_id := newObjectId env;
     d_fields :=
       {| p_firstName := p_firstName fields;
          p_lastName := p_lastName fields;
          p_email := p_email fields;
          p_phone := p_phone fields;
          p_password := p_password fields;
          p_role := Some (default "user" (p_role fields));
          p_points := Some (default 0 (p_points fields));
          p_bio := p_bio fields;
          p_createdAt := Some (default (now env) (p_createdAt fields)) |};
     d_isNew := true;
     d_modified := givenPaths fields |}.

(** A document loaded from the store: nothing is modified. *)
Definition hydrate (u : IUser) : UserDocument :=
  {| d_id := _id u;
     d_fields :=
       {| p_firstName := Some (firstName u); p_lastName := Some (lastName u);
          p_email := Some (email u); p_phone := Some (phone u);
          p_password := Some (password u); p_role := Some (role u);
          p_points := Some (points u); p_bio := bio u;
          p_createdAt := Some (createdAt u) |};
     d_isNew := false;
     d_modified := [] |}.

Definition with_password (pw : option string) (f : PartialUser) : PartialUser :=
  {| p_firstName := p_firstName f; p_lastName := p_lastName f;
     p_email := p_email f; p_phone := p_phone f; p_password := pw;
     p_role := p_role f; p_points := p_points f; p_bio := p_bio f;
     p_createdAt := p_createdAt f |}.

(** [doc.password = pw]: the path is marked modified when the value
    changes. *)
Definition set_password (pw : string) (d : UserDocument) : UserDocument :=
  if bool_decide (p_password (d_fields d) = Some pw) then d
  else {| d_id := d_id d;
          d_fields := with_password (Some pw) (d_fields d);
          d_isNew := d_isNew d;
          d_modified := "password" :: d_modified d |}.

(** The validators of [UserSchema]: [required] on five string paths (an
    empty string does not satisfy it) and [enum] on [role]. *)
Definition validate (f : PartialUser) : bool :=
  JS.truthy (p_firstName f) && JS.truthy (p_lastName f)
  && JS.truthy (p_email f) && JS.truthy (p_phone f)
  && JS.truthy (p_password f)
  && match p_role f with
     | None => true
     | Some r => bool_decide (r ∈ ["user"; "admin"])
     end.

(** [UserSchema.pre('save')]: the password is hashed with cost 12 when the
    path is modified, and left alone otherwise.  [None] is the exception
    [bcrypt.hash] raises on an undefined password. *)
Definition pre_save (env : Env) (this : UserDocument) : option UserDocument :=
  if negb (isModified this "password") then Some this
  else
    match p_password (d_fields this) with
    | None => None
    | Some pw =>
        Some {| d_id := d_id this;
                d_fields :=
                  with_password (Some (bcrypt.hash pw 12 (saltRandom env)))
                                (d_fields this);
                d_isNew := d_isNew this;
                d_modified := d_modified this |}
    end.

(** [UserSchema.methods.comparePassword]. *)
Definition comparePassword (this : IUser) (candidatePassword : string) : bool :=
  bcrypt.compare candidatePassword (password this).

(** The stored form of a validated document. *)
Definition toIUser (d : UserDocument) : IUser :=
  let f := d_fields d in
  {| _id := d_id d;
     firstName := default "" (p_firstName f);
     lastName := default "" (p_lastName f);
     email := default "" (p_email f);
     phone := default "" (p_phone f);
     password := default "" (p_password f);
     role := default "user" (p_role f);
     points := default 0 (p_points f);
     bio := p_bio f;
     createdAt := default 0 (p_createdAt f) |}.

Definition keep {A} (d : UserDocument) (path : string) (v : option A)
  : option A :=
  if isModified d path then v else None.

(** The fields an update of an existing document writes: the modified
    paths. *)
Definition modifiedFields (d : UserDocument) : PartialUser :=
  let f := d_fields d in
  {| p_firstName := keep d "firstName" (p_firstName f);
     p_lastName := keep d "lastName" (p_lastName f);
     p_email := keep d "email" (p_email f);
     p_phone := keep d "phone" (p_phone f);
     p_password := keep d "password" (p_password f);
     p_role := keep d "role" (p_role f);
     p_points := keep d "points" (p_points f);
     p_bio := keep d "bio" (p_bio f);
     p_createdAt := keep d "createdAt" (p_createdAt f) |}.

Definition saved (d : UserDocument) : UserDocument :=
  {| d_id := d_id d; d_fields := d_fields d;
     d_isNew := false; d_modified := [] |}.

(** [doc.save()]: validation, then the pre-save hook, then the write (an
    insert for a new document, an update of the modified paths
    otherwise).  A duplicate identifier or email, and an update of a
    document that is gone, throw. *)
Definition User_save (env : Env) (d : UserDocument) : M UserDocument :=
  called (Call_User_save (d_id d));;
  if negb (validate (d_fields d)) then throw
  else
    match pre_save env d with
    | None => throw
    | Some d' =>
        us ← getUsers;
        if d_isNew d' then
          let u := toIUser d' in
          if bool_decide (is_Some (findById (_id u) us))
             || emailTaken (_id u) (email u) us
          then throw
          else putUsers (us ++ [u]);; mret (saved d')
        else
          match findById (d_id d') us with
          | None => throw
          | Some u0 =>
              let u := apply_update (modifiedFields d') u0 in
              if emailTaken (_id u) (email u) us then throw
              else putUsers (replaceById (_id u) u us);; mret (saved d')
          end
    end.

End UserModel.
(** ** The admin controller *)

Section Controller.
Context `{ObjectIds} `{BcryptCore} `{!StoreBehaviour}.

(** [req.query] of the games listing: each parameter as the string it
    converts to (what [parseInt] reads), [None] when it is absent. *)
Record GamesQuery := {
  q_page : option string;
  q_limit : option string
}.

(** [req.user] of an [AuthRequest]. *)
Record AuthUser := {
  auth_id : string;
  auth_role : string
}.

(** [a || b] on strings. *)
Definition or_string (a : option string) (b : string) : string :=
  match a with
  | Some s => if JS.truthy a then s else b
  | None => b
  end.

(** The object built for each game by [games.map(...)]. *)
Definition formatGame (game : PopulatedGame) : FormattedGame :=
  {| fg_id := g_id (pg_game game);
     user :=
       match pg_userId game with
       | Some u =>
           Some {| ref_id := ref_id u;
                   ref_firstName := ref_firstName u;
                   ref_lastName := ref_lastName u |}
       | None => None
       end;
     fg_number := number (pg_game game);
     fg_result := result (pg_game game);
     fg_pointsChange := pointsChange (pg_game game);
     newBalance := balanceAfter (pg_game game);
     fg_createdAt := g_createdAt (pg_game game) |}.

Definition getAllGames (query : GamesQuery) : M Response :=
  try_catch
    (let page := JS.or (JS.parseInt (q_page query)) 1 in
     let limit := JS.or (JS.parseInt (q_limit query)) 10 in
     let skip := (page - 1) * limit in
     '(games, totalGames) ←
       Promise_all (Game_find_page skip limit) Game_countDocuments;
     let formattedGames := formatGame <$> games in
     mret (respond 200 "Historique des parties récupéré avec succès"
             (Some (GamesData formattedGames
                      {| total := totalGames;
                         page := page;
                         pages := JS.ceil_div totalGames limit;
                         limit := limit |}))))
    (mret (respond 500
             "Erreur lors de la récupération de l'historique des parties"
             None)).

Definition getAllUsers : M Response :=
  try_catch
    (users ← User_find_no_password;
     mret (respond 200 "Utilisateurs récupérés avec succès"
             (Some (UsersData users))))
    (mret (respond 500 "Erreur lors de la récupération des utilisateurs"
             None)).

Definition createUser (env : Env) (body : PartialUser) : M Response :=
  try_catch
    (let firstName := p_firstName body in
     let lastName := p_lastName body in
     let email := p_email body in
     let phone := p_phone body in
     let password := p_password body in
     let role := p_role body in
     if negb (JS.truthy firstName) || negb (JS.truthy lastName)
        || negb (JS.truthy email) || negb (JS.truthy phone)
        || negb (JS.truthy password)
     then
       mret (respond 400
               "Tous les champs obligatoires doivent être remplis" None)
     else
       existingUser ← User_findOne email;
       if bool_decide (is_Some existingUser) then
         mret (respond 400 "Un utilisateur avec cet email existe déjà" None)
       else
         let user :=
           new_User env
             {| p_firstName := firstName;
                p_lastName := lastName;
                p_email := email;
                p_phone := phone;
                p_password := password;
                p_role := Some (or_string role "user");
                p_points := Some 0;
                p_bio := None;
                p_createdAt := None |} in
         user ← User_save env user;
         let userData := toObject (toIUser user) in
         let userData := delete_password userData in
         mret (respond 201 "Utilisateur créé avec succès"
                 (Some (UserData userData))))
    (mret (respond 500 "Erreur lors de la création de l'utilisateur" None)).

(** [delete updateData.password]: the other keys stay. *)
Definition delete_body_password (updateData : UpdateBody) : UpdateBody :=
  {| b_fields := with_password None (b_fields updateData);
     b_other := b_other updateData |}.

Definition updateUser (id : string) (body : UpdateBody) : M Response :=
  try_catch
    (let updateData := body in
     let updateData :=
       if JS.truthy (p_password (b_fields updateData))
       then delete_body_password updateData
       else updateData in
     user ← User_findByIdAndUpdate id updateData;
     match user with
     | None => mret (respond 404 "Utilisateur non trouvé" None)
     | Some user =>
         mret (respond 200 "Utilisateur mis à jour avec succès"
                 (Some (UserData user)))
     end)
    (mret (respond 500 "Erreur lors de la mise à jour de l'utilisateur"
             None)).

(** [req.user?._id.toString() === id]. *)
Definition isSelf (req_user : option AuthUser) (id : string) : bool :=
  match req_user with
  | Some u => String.eqb (auth_id u) id
  | None => false
  end.

Definition deleteUser (req_user : option AuthUser) (id : string) : M Response :=
  try_catch
    (if isSelf req_user id then
       mret (respond 400
               "Vous ne pouvez pas supprimer votre propre compte" None)
     else
       user ← User_findByIdAndDelete id;
       match user with
       | None => mret (respond 404 "Utilisateur non trouvé" None)
       | Some _ => mret (respond 200 "Utilisateur supprimé avec succès" None)
       end)
    (mret (respond 500 "Erreur lors de la suppression de l'utilisateur"
             None)).

End Controller.
(** ** Concrete collaborators, for running the model *)

(** Identifiers written as 24 hexadecimal digits, in either case; the
    identifier itself is the lower-case spelling. *)
Module Hex.

Definition isHexDigit (c : ascii) : bool :=
  match JS.digitValue c with
  | Some d => (d <? 16)%Z
  | None => false
  end.

Definition toLower (c : ascii) : ascii :=
  let n := nat_of_ascii c in
  if (Nat.leb 65 n && Nat.leb n 90)%bool then ascii_of_nat (n + 32) else c.

Fixpoint allHex (s : string) : bool :=
  match s with
  | String c r => isHexDigit c && allHex r
  | EmptyString => true
  end.

Fixpoint lower (s : string) : string :=
  match s with
  | String c r => String (toLower c) (lower r)
  | EmptyString => EmptyString
  end.

Definition cast (s : string) : option string :=
  if (Nat.eqb (String.length s) 24 && allHex s)%bool then Some (lower s)
  else None.

End Hex.

Definition hexObjectIds : ObjectIds :=
  {| ObjectId := string; castObjectId := Hex.cast |}.

(** A stand-in for the digest, of the right length: 30 dots and a last
    character that differs from the last character of the password. *)
Module Toy.

Fixpoint lastChar (s : string) : option ascii :=
  match s with
  | EmptyString => None
  | String c EmptyString => Some c
  | String _ r => lastChar r
  end.

Definition flip (s : string) : ascii :=
  match lastChar s with
  | Some "a"%char => "b"%char
  | _ => "a"%char
  end.

Definition crypt_raw (salt s : string) : string :=
  ".............................." +:+ String (flip s) "".

End Toy.

Definition toyBcrypt : BcryptCore := {| crypt_raw := Toy.crypt_raw |}.

(** A store that sorts the same way for every query, returns a negative
    limit whole in its single batch, and whose update documents have, for
    other keys, a [$set] of fields. *)
Definition mongoStore : StoreBehaviour (H := hexObjectIds) :=
  {| sortGames := λ _ _, merge_sort newer_first;
     sortGames_sorted := λ _ _, StronglySorted_merge_sort newer_first;
     sortGames_perm := λ _ _, merge_sort_Permutation newer_first;
     singleBatch := id;
     singleBatch_prefix := λ l, reflexivity l;
     OtherKeys := PartialUser;
     castOther := λ o _, match p_createdAt o with
                         | Some t => isDate t
                         | None => true
                         end;
     applyOther := λ o _ u, Some (apply_update o u);
     applyOther_id :=
       λ o _ u u' E, f_equal (from_option _id (_id u)) (eq_sym E) |}.

(** ** Vocabulary of the properties *)

Section Vocabulary.
Context `{ObjectIds} `{BcryptCore} `{!StoreBehaviour}.

(** The user objects a response carries. *)
Definition payloadUsers (r : Response) : list UserObject :=
  match data (json r) with
  | Some (UsersData us) => us
  | Some (UserData u) => [u]
  | _ => []
  end.

(** The answers of the handlers, by name. *)
Definition forbiddenSelfDelete : Response :=
  respond 400 "Vous ne pouvez pas supprimer votre propre compte" None.

(** Some required field of the body is missing or empty. *)
Definition missingField (body : PartialUser) : bool :=
  negb (JS.truthy (p_firstName body)) || negb (JS.truthy (p_lastName body))
  || negb (JS.truthy (p_email body)) || negb (JS.truthy (p_phone body))
  || negb (JS.truthy (p_password body)).

(** Some stored user has the email of the body. *)
Definition emailExists (body : PartialUser) (w : World) : bool :=
  existsb (λ u, String.eqb (email u) (JS.toString (p_email body)))
          (Users (db w)).

(** The role the document is built with is one of the enumeration. *)
Definition validRole (body : PartialUser) : bool :=
  bool_decide (or_string (p_role body) "user" ∈ ["user"; "admin"]).

Definition freshId (env : Env) (w : World) : bool :=
  bool_decide (findById (newObjectId env) (Users (db w)) = None).

(** The record a successful creation stores. *)
Definition createdUser (env : Env) (body : PartialUser) : IUser :=
  {| _id := newObjectId env;
     firstName := JS.toString (p_firstName body);
     lastName := JS.toString (p_lastName body);
     email := JS.toString (p_email body);
     phone := JS.toString (p_phone body);
     password :=
       bcrypt.hash (JS.toString (p_password body)) 12 (saltRandom env);
     role := or_string (p_role body) "user";
     points := 0;
     bio := None;
     createdAt := now env |}.

Definition missingFieldsResponse : Response :=
  respond 400 "Tous les champs obligatoires doivent être remplis" None.
Definition duplicateEmailResponse : Response :=
  respond 400 "Un utilisateur avec cet email existe déjà" None.
Definition createFailedResponse : Response :=
  respond 500 "Erreur lors de la création de l'utilisateur" None.
Definition createdResponse (u : IUser) : Response :=
  respond 201 "Utilisateur créé avec succès"
    (Some (UserData (delete_password (toObject u)))).

Definition withCalls (w : World) (cs : list StoreCall) (us : list IUser)
  : World :=
  {| db := {| Users := us; Games := Games (db w) |};
     calls := calls w ++ cs |}.

Definition usersListedResponse (us : list IUser) : Response :=
  respond 200 "Utilisateurs récupérés avec succès"
    (Some (UsersData ((λ u, delete_password (toObject u)) <$> us))).

(** The fields of the update document the handler hands to the store. *)
Definition strippedUpdate (body : PartialUser) : PartialUser :=
  if JS.truthy (p_password body) then with_password None body else body.

(** The update document the handler hands to the store. *)
Definition strippedBody (body : UpdateBody) : UpdateBody :=
  {| b_fields := strippedUpdate (b_fields body); b_other := b_other body |}.

(** A body of plain fields. *)
Definition plainBody (fields : PartialUser) : UpdateBody :=
  {| b_fields := fields; b_other := None |}.

Definition updateFailedResponse : Response :=
  respond 500 "Erreur lors de la mise à jour de l'utilisateur" None.
Definition userNotFoundResponse : Response :=
  respond 404 "Utilisateur non trouvé" None.
Definition updatedResponse (u : IUser) : Response :=
  respond 200 "Utilisateur mis à jour avec succès"
    (Some (UserData (delete_password (toObject u)))).

(** The digest is 31 characters long. *)
Definition digestLength : Prop :=
  ∀ salt s, String.length (crypt_raw salt s) = 31%nat.

(** The salt randomness is 22 characters long. *)
Definition saltLength (env : Env) : Prop :=
  String.length (saltRandom env) = 22%nat.


(** The stored password of the user a document stands for. *)
Definition storedPassword (d : UserDocument) (w : World) : option string :=
  password <$> findById (d_id d) (Users (db w)).

(** A required field that is missing or empty. *)
Definition absentOrEmpty (v : option string) : Prop :=
  v = None ∨ v = Some "".

Definition requiredMissing (body : PartialUser) : Prop :=
  absentOrEmpty (p_firstName body) ∨ absentOrEmpty (p_lastName body)
  ∨ absentOrEmpty (p_email body) ∨ absentOrEmpty (p_phone body)
  ∨ absentOrEmpty (p_password body).


(** An update body that carries only a password. *)
Definition passwordOnly (pw : string) : PartialUser :=
  {| p_firstName := None; p_lastName := None; p_email := None;
     p_phone := None; p_password := Some pw; p_role := None;
     p_points := None; p_bio := None; p_createdAt := None |}.

(** The page, the limit and the offset the handler computes from the
    query. *)
Definition pageOf (query : GamesQuery) : Z :=
  JS.or (JS.parseInt (q_page query)) 1.
Definition limitOf (query : GamesQuery) : Z :=
  JS.or (JS.parseInt (q_limit query)) 10.
Definition offsetOf (query : GamesQuery) : Z :=
  (pageOf query - 1) * limitOf query.

(** Page and limit are positive, and page, limit and offset are numbers
    on which the arithmetic of the handler is exact. *)
Definition acceptedPaging (query : GamesQuery) : Prop :=
  1 ≤ pageOf query ∧ 1 ≤ limitOf query
  ∧ JS.isSafeInteger (pageOf query) ∧ JS.isSafeInteger (limitOf query)
  ∧ JS.isSafeInteger (offsetOf query).

(** Page, limit and offset are numbers on which the arithmetic of the
    handler is exact. *)
Definition exactPaging (query : GamesQuery) : Prop :=
  JS.isSafeInteger (pageOf query) ∧ JS.isSafeInteger (limitOf query)
  ∧ JS.isSafeInteger (offsetOf query).

(** The games the store returns for an offset and a limit. *)
Definition limited (skip limit : Z) (gs : list Game) : list Game :=
  applyLimit limit (drop (Z.to_nat skip) (sortGames skip limit gs)).

Definition gamesListedResponse (query : GamesQuery) (w : World) : Response :=
  respond 200 "Historique des parties récupéré avec succès"
    (Some (GamesData
             (formatGame
                <$> (populate_userId (Users (db w))
                       <$> limited (offsetOf query) (limitOf query)
                             (Games (db w))))
             {| total := Z.of_nat (List.length (Games (db w)));
                page := pageOf query;
                pages := JS.ceil_div (Z.of_nat (List.length (Games (db w))))
                                     (limitOf query);
                limit := limitOf query |})).

Definition gamesFailedResponse : Response :=
  respond 500 "Erreur lors de la récupération de l'historique des parties"
    None.

Definition gamesCalls (query : GamesQuery) : list StoreCall :=
  [Call_Game_find (offsetOf query) (limitOf query);
   Call_Game_countDocuments].

(** The owner a game resolves to: none when the reference is null and
    none when it points to no stored user. *)
Definition ownerOf (us : list IUser) (g : Game) : option IUser :=
  match userId g with
  | Some oid => findById oid us
  | None => None
  end.

Definition refOf (u : IUser) : UserRef :=
  {| ref_id := _id u; ref_firstName := firstName u;
     ref_lastName := lastName u |}.

(** What the listing makes of a game. *)
Definition formats (us : list IUser) (g : Game) (item : FormattedGame)
  : Prop :=
  fg_id item = g_id g ∧ fg_number item = number g
  ∧ fg_result item = result g ∧ fg_pointsChange item = pointsChange g
  ∧ newBalance item = balanceAfter g ∧ fg_createdAt item = g_createdAt g
  ∧ (ownerOf us g = None → user item = None)
  ∧ (∀ u, ownerOf us g = Some u → user item = Some (refOf u)).

End Vocabulary.

(** ** The model at work: concrete runs *)

Section Runs.
Local Existing Instance hexObjectIds.
Local Existing Instance toyBcrypt.
Local Existing Instance mongoStore.

Definition envA : Env :=
  {| now := 1700000000000;
     newObjectId := "65a1b2c3d4e5f60718293a4b";
     saltRandom := "N9qo8uLOickgx2ZMRZoMye" |}.

Definition emptyWorld : World :=
  {| db := {| Users := []; Games := [] |}; calls := [] |}.

Definition aliceBody : PartialUser :=
  {| p_firstName := Some "Alice"; p_lastName := Some "Martin";
     p_email := Some "alice@example.com"; p_phone := Some "+237600000000";
     p_password := Some "secret"; p_role := None; p_points := None;
     p_bio := None; p_createdAt := None |}.

Definition alice : IUser := createdUser envA aliceBody.

(** The world after Alice has been created. *)
Definition worldA : World :=
  withCalls emptyWorld
    [Call_User_findOne "alice@example.com";
     Call_User_save "65a1b2c3d4e5f60718293a4b"]
    [alice].


Definition createdAtBody : PartialUser :=
  {| p_firstName := None; p_lastName := None; p_email := None;
     p_phone := None; p_password := None; p_role := None;
     p_points := None; p_bio := None; p_createdAt := Some 5 |}.

(** Identifiers of the games: 22 zeros and two decimal digits. *)
Definition gameId (n : nat) : string :=
  "0000000000000000000000" +:+ bcrypt.twoDigits n.

(** Game [n] was created at time [n]; one game in three has no owner, one
    in three is Alice's, one in three belongs to a user that is gone. *)
Definition gameA (n : nat) : Game :=
  {| g_id := gameId n;
     userId :=
       match (n mod 3)%nat with
       | O => None
       | 1%nat => Some "65a1b2c3d4e5f60718293a4b"
       | _ => Some "ffffffffffffffffffffffff"
       end;
     number := Z.of_nat n;
     result := "gagné";
     pointsChange := 50;
     balanceAfter := 50 * Z.of_nat n;
     g_createdAt := Z.of_nat n |}.

(** Alice and 25 games. *)
Definition worldG : World :=
  {| db := {| Users := [alice]; Games := gameA <$> seq 1 25 |};
     calls := [] |}.

Definition page2 : GamesQuery :=
  {| q_page := Some "2"; q_limit := Some "10" |}.

Definition pageMinus1 : GamesQuery :=
  {| q_page := Some "-1"; q_limit := None |}.

End Runs.

(** ** What the handlers leave to observe *)

Section Observations.
Context `{ObjectIds} `{BcryptCore} `{!StoreBehaviour}.

(** The games a response carries. *)
Definition itemsOf (r : Response) : list FormattedGame :=
  match data (json r) with
  | Some (GamesData items _) => items
  | _ => []
  end.

(** The status of the answer of a handler. *)
Definition status_of (o : Outcome Response) : option Z :=
  match o with
  | Return r => Some (status r)
  | Throw => None
  end.

(** The games listed in answer to a query. *)
Definition gamesListed (query : GamesQuery) (w : World) : list FormattedGame :=
  match (getAllGames query w).1 with
  | Return r => itemsOf r
  | Throw => []
  end.

(** The users listed by [getAllUsers]. *)
Definition usersListed (w : World) : list UserObject :=
  match (getAllUsers w).1 with
  | Return r => payloadUsers r
  | Throw => []
  end.

(** Games as the listing shows them. *)
Definition listing (us : list IUser) (gs : list Game) : list FormattedGame :=
  formatGame <$> (populate_userId us <$> gs).

(** Newest first, on listed games. *)
Definition listed_newer_first (a b : FormattedGame) : Prop :=
  fg_createdAt b ≤ fg_createdAt a.

(** The identifiers and the emails of the stored users are unique. *)
Definition uniqueUsers (us : list IUser) : Prop :=
  NoDup (_id <$> us) ∧ NoDup (email <$> us).

(** Two bodies agree on the six fields [createUser] reads. *)
Definition sameCreateFields (b1 b2 : PartialUser) : Prop :=
  p_firstName b1 = p_firstName b2 ∧ p_lastName b1 = p_lastName b2
  ∧ p_email b1 = p_email b2 ∧ p_phone b1 = p_phone b2
  ∧ p_password b1 = p_password b2 ∧ p_role b1 = p_role b2.


Definition deleteFailedResponse : Response :=
  respond 500 "Erreur lors de la suppression de l'utilisateur" None.
Definition deletedResponse : Response :=
  respond 200 "Utilisateur supprimé avec succès" None.

(** The user stored after an update of [u] with the body. *)
Definition updatedBy (body : UpdateBody) (u : IUser) : option IUser :=
  updated (strippedBody body) u.

End Observations.

Section MoreRuns.
Local Existing Instance hexObjectIds.
Local Existing Instance toyBcrypt.
Local Existing Instance mongoStore.

Definition limit10 (p : string) : GamesQuery :=
  {| q_page := Some p; q_limit := Some "10" |}.

Definition bobBody : PartialUser :=
  {| p_firstName := Some "Bob"; p_lastName := Some "Ngono";
     p_email := Some "bob@example.com"; p_phone := Some "+237611111111";
     p_password := Some "hunter2"; p_role := Some "admin";
     p_points := Some 1000000; p_bio := Some "hello";
     p_createdAt := Some 0 |}.

Definition envB : Env :=
  {| now := 1700000001000;
     newObjectId := "65a1b2c3d4e5f60718293a4c";
     saltRandom := "abcdefghijklmnopqrstuv" |}.

Definition renameBody : PartialUser :=
  {| p_firstName := Some "Alicia"; p_lastName := None; p_email := None;
     p_phone := None; p_password := Some "ignored"; p_role := None;
     p_points := Some 70; p_bio := None; p_createdAt := None |}.

Definition admin : AuthUser :=
  {| auth_id := "000000000000000000000001"; auth_role := "admin" |}.

Definition aliceId : string := "65a1b2c3d4e5f60718293a4b".
Definition bobId : string := "65a1b2c3d4e5f60718293a4c".

Definition bob : IUser := createdUser envB bobBody.

(** The world after Bob has been created next to Alice. *)
Definition worldAB : World := (createUser envB bobBody worldA).2.

(** Bob's body with the six fields [createUser] reads and nothing else. *)
Definition bobSixFields : PartialUser :=
  {| p_firstName := Some "Bob"; p_lastName := Some "Ngono";
     p_email := Some "bob@example.com"; p_phone := Some "+237611111111";
     p_password := Some "hunter2"; p_role := Some "admin";
     p_points := None; p_bio := None; p_createdAt := None |}.

Definition threePages : list GamesQuery :=
  [limit10 "1"; limit10 "2"; limit10 "3"].

Definition page4 : GamesQuery := limit10 "4".

Definition zeroQuery : GamesQuery :=
  {| q_page := Some "0"; q_limit := Some "0" |}.


Definition noFields : PartialUser :=
  {| p_firstName := None; p_lastName := None; p_email := None;
     p_phone := None; p_password := None; p_role := None;
     p_points := None; p_bio := None; p_createdAt := None |}.

(** The body [{"$set": {"createdAt": 5}}]. *)
Definition setCreatedAtBody : UpdateBody :=
  {| b_fields := noFields; b_other := Some createdAtBody |}.

(** The body [{"$set": {"password": "plain"}}]. *)
Definition setPasswordBody : UpdateBody :=
  {| b_fields := noFields; b_other := Some (passwordOnly "plain") |}.



(** The world with the 25 games once Alice has been deleted. *)
Definition worldGd : World := (deleteUser (Some admin) aliceId worldG).2.

Definition aliceDoc : UserDocument := new_User envA aliceBody.

Definition worldS : World := (User_save envA aliceDoc emptyWorld).2.

Definition savedAliceDoc : UserDocument :=
  match (User_save envA aliceDoc emptyWorld).1 with
  | Return d => d
  | Throw => aliceDoc
  end.

End MoreRuns.

(** * Properties *)

Create HintDb monad_ops.
#[global] Hint Unfold mbind mret M_bind M_ret bind ret throw try_catch
  Promise_all called getUsers getGames putUsers : monad_ops.

(** Runs the monad operations of a handler applied to a world. *)
Ltac run_M := autounfold with monad_ops in *; simpl in *.

(** ** The JavaScript primitives on examples *)

Example parseInt_examples :
  JS.parseInt (Some "2") = Some 2 ∧ JS.parseInt (Some "  -17px") = Some (-17)
  ∧ JS.parseInt (Some "0x1F") = Some 31 ∧ JS.parseInt (Some "abc") = None
  ∧ JS.parseInt (Some "") = None ∧ JS.parseInt (Some "0") = Some 0.
Proof. repeat split; reflexivity. Qed.

Example or_examples :
  JS.or (JS.parseInt (Some "abc")) 1 = 1 ∧ JS.or (JS.parseInt (Some "0")) 1 = 1
  ∧ JS.or (JS.parseInt None) 10 = 10 ∧ JS.or (JS.parseInt (Some "3")) 1 = 3.
Proof. repeat split; reflexivity. Qed.

(** White space before the digits is skipped, also when it is not ASCII:
    here a no-break space (C2 A0 in UTF-8) and an ideographic space
    (E3 80 80). *)
Example parseInt_skips_unicode_space :
  JS.parseInt
    (Some (String (ascii_of_nat 194) (String (ascii_of_nat 160) "3")))
  = Some 3
  ∧ JS.parseInt
      (Some (String (ascii_of_nat 227)
               (String (ascii_of_nat 128) (String (ascii_of_nat 128) "12"))))
    = Some 12.
Proof. split; vm_compute; reflexivity. Qed.

Example ceil_div_examples :
  JS.ceil_div 25 10 = 3 ∧ JS.ceil_div 0 10 = 0 ∧ JS.ceil_div 20 10 = 2.
Proof. repeat split; reflexivity. Qed.

(** ** Deleting a user *)

Section DeleteUser.
Context `{ObjectIds} `{BcryptCore} `{!StoreBehaviour}.

Lemma isSelf_spec (req_user : option AuthUser) (id : string) :
  isSelf req_user id = true ↔ ∃ u, req_user = Some u ∧ auth_id u = id.
Proof.
  unfold isSelf. destruct req_user as [u|].
  - rewrite String.eqb_eq. split; [eauto | intros (u' & [= <-] & ?); done].
  - split; [done | intros (u' & ? & ?); done].
Qed.

Lemma deleteUser_self req_user id w :
  isSelf req_user id = true →
  deleteUser req_user id w = (Return forbiddenSelfDelete, w).
Proof. intros Hs. unfold deleteUser. run_M. by rewrite Hs. Qed.

(** When the guard does not fire the store delete is the first call made,
    and the answer is never the 400 of the guard. *)
Lemma deleteUser_other req_user id w :
  isSelf req_user id = false →
  ∃ r w', deleteUser req_user id w = (Return r, w')
          ∧ status r ≠ 400
          ∧ calls w' = calls w ++ [Call_User_findByIdAndDelete id].
Proof.
  intros Hs. unfold deleteUser, User_findByIdAndDelete. run_M. rewrite Hs.
  destruct (castObjectId id) as [oid|]; simpl; [|by eauto].
  destruct (findById oid (Users (db w))); simpl; by eauto.
Qed.

(** C3 on the code: the guard of [deleteUser] compares the acting user's
    id with the target id as text.  When the two are the same text the
    request is answered 400, no store call is made and the store is as it
    was.  When the target id is another spelling of the acting user's own
    identifier (the store casts both to the same identifier) the guard
    does not fire: the store delete is called with the target id, the
    acting user's own account is removed and the answer is 200. *)
Theorem deleteUser_guard_is_textual (acting : AuthUser) (id : string)
    (w : World) :
  ∃ r w',
    deleteUser (Some acting) id w = (Return r, w')
    ∧ (auth_id acting = id →
       r = forbiddenSelfDelete ∧ status r = 400
       ∧ calls w' = calls w ∧ db w' = db w)
    ∧ (∀ oid u,
         auth_id acting ≠ id →
         castObjectId (auth_id acting) = Some oid →
         castObjectId id = Some oid →
         findById oid (Users (db w)) = Some u →
         r = deletedResponse ∧ status r = 200
         ∧ calls w' = calls w ++ [Call_User_findByIdAndDelete id]
         ∧ Users (db w') = removeById oid (Users (db w))
         ∧ findById oid (Users (db w')) = None).
Proof.
  destruct (isSelf (Some acting) id) eqn:Hs.
  - rewrite deleteUser_self by done. eexists _, _. split; [reflexivity|].
    split; [done|].
    intros oid u Hne. simpl in Hs. by apply String.eqb_eq in Hs.
  - assert (auth_id acting ≠ id) as Hne.
    { simpl in Hs. by apply String.eqb_neq in Hs. }
    unfold deleteUser, User_findByIdAndDelete. run_M. rewrite Hs.
    destruct (castObjectId id) as [oid|] eqn:Hc; simpl.
    2:{ eexists _, _. split; [reflexivity|]. split; [done|].
        intros oid u _ _ [=]. }
    destruct (findById oid (Users (db w))) as [u|] eqn:Hu; simpl.
    2:{ eexists _, _. split; [reflexivity|]. split; [done|].
        intros oid' u _ _ [= <-] Hu'. congruence. }
    eexists _, _. split; [reflexivity|]. split; [done|].
    intros oid' u' _ _ [= <-] _. simpl. split_and!; try done.
    unfold findById, removeById. clear Hu.
    induction (Users (db w)) as [|x us IH]; simpl; [done|].
    destruct (bool_decide (_id x = oid)) eqn:Hx; simpl; [done|].
    by rewrite Hx.
Qed.

(** C10: the self-delete refusal is given exactly when an acting user is
    present on the request and its id string is the target id; with no
    acting user the guard is skipped and the store delete is called with
    the target id, whatever that id is. *)
Theorem deleteUser_guard_iff (req_user : option AuthUser) (id : string)
    (w : World) :
  ∃ r w', deleteUser req_user id w = (Return r, w')
    ∧ (r = forbiddenSelfDelete ↔ ∃ u, req_user = Some u ∧ auth_id u = id)
    ∧ (r = forbiddenSelfDelete → calls w' = calls w)
    ∧ (r ≠ forbiddenSelfDelete →
       calls w' = calls w ++ [Call_User_findByIdAndDelete id])
    ∧ (req_user = None → r ≠ forbiddenSelfDelete).
Proof.
  destruct (isSelf req_user id) eqn:Hs.
  - exists forbiddenSelfDelete, w. rewrite deleteUser_self by done.
    split_and!; try done.
    + split; [intros _; by apply isSelf_spec | done].
    + intros ->. done.
  - destruct (deleteUser_other req_user id w Hs) as (r & w' & -> & Hr & Hc).
    assert (r ≠ forbiddenSelfDelete) as Hne by (intros ->; done).
    exists r, w'. split_and!; try done.
    split; [done|].
    intros Hu. apply isSelf_spec in Hu. congruence.
Qed.

End DeleteUser.

(** ** Creating a user *)

Section CreateUser.
Context `{ObjectIds} `{BcryptCore} `{!StoreBehaviour}.

Lemma truthy_Some (v : option string) :
  JS.truthy v = true → ∃ s, v = Some s ∧ s ≠ "".
Proof.
  destruct v as [s|]; simpl; [|done]. intros Hs. exists s. split; [done|].
  intros ->. done.
Qed.

Lemma find_is_Some_existsb {A} (f : A → bool) (l : list A) :
  bool_decide (is_Some (List.find f l)) = existsb f l.
Proof.
  induction l as [|a l IH]; simpl; [done|].
  destruct (f a); simpl; done.
Qed.

Lemma emailTaken_existsb oid e (us : list IUser) :
  existsb (λ u, String.eqb (email u) e) us = false →
  emailTaken oid e us = false.
Proof.
  unfold emailTaken. induction us as [|u us IH]; simpl; [done|].
  intros [Hu Hus]%orb_false_iff. rewrite Hu, andb_false_r. simpl. auto.
Qed.

Lemma createUser_missing env body w :
  missingField body = true →
  createUser env body w = (Return missingFieldsResponse, w).
Proof.
  unfold missingField, createUser. run_M. intros ->. done.
Qed.

Lemma createUser_duplicate env body w :
  missingField body = false → emailExists body w = true →
  createUser env body w
  = (Return duplicateEmailResponse,
     withCalls w [Call_User_findOne (JS.toString (p_email body))]
               (Users (db w))).
Proof.
  unfold missingField, emailExists, createUser, User_findOne. run_M.
  intros Hm He. rewrite Hm.
  apply orb_false_iff in Hm as [Hm _].
  apply orb_false_iff in Hm as [Hm _].
  apply orb_false_iff in Hm as [_ Hm%negb_false_iff].
  apply truthy_Some in Hm as (e & Heq & _). rewrite Heq in *. simpl in *.
  rewrite find_is_Some_existsb, He. unfold withCalls.
  by destruct w as [[] ?].
Qed.

Lemma missingField_false body :
  missingField body = false →
  ∃ fn ln em ph pw,
    p_firstName body = Some fn ∧ p_lastName body = Some ln
    ∧ p_email body = Some em ∧ p_phone body = Some ph
    ∧ p_password body = Some pw
    ∧ fn ≠ "" ∧ ln ≠ "" ∧ em ≠ "" ∧ ph ≠ "" ∧ pw ≠ "".
Proof.
  unfold missingField. intros Hm.
  repeat (apply orb_false_iff in Hm as [Hm ?]).
  repeat match goal with
         | H : negb (JS.truthy _) = false |- _ =>
             apply negb_false_iff, truthy_Some in H as (? & ? & ?)
         end.
  eauto 15.
Qed.

(** The document the handler builds passes the [required] validators as
    soon as the five fields are there; only [role] can fail validation. *)
Lemma createUser_invalid_role env body w :
  missingField body = false → emailExists body w = false →
  validRole body = false →
  createUser env body w
  = (Return createFailedResponse,
     withCalls w [Call_User_findOne (JS.toString (p_email body));
                  Call_User_save (newObjectId env)]
               (Users (db w))).
Proof.
  intros Hm He Hr.
  destruct (missingField_false body Hm)
    as (fn & ln & em & ph & pw & Hfn & Hln & Hem & Hph & Hpw & _).
  unfold emailExists, validRole, createUser, User_findOne, User_save in *.
  unfold missingField in Hm. run_M. rewrite Hm.
  rewrite Hfn, Hln, Hem, Hph, Hpw in *. simpl in *.
  rewrite find_is_Some_existsb, He. simpl.
  unfold validate; simpl.
  rewrite Hr. rewrite !andb_false_r. simpl. unfold withCalls.
  destruct w as [[] ?]; simpl. by rewrite <- app_assoc.
Qed.

Lemma createUser_id_taken env body w :
  missingField body = false → emailExists body w = false →
  validRole body = true → freshId env w = false →
  createUser env body w
  = (Return createFailedResponse,
     withCalls w [Call_User_findOne (JS.toString (p_email body));
                  Call_User_save (newObjectId env)]
               (Users (db w))).
Proof.
  intros Hm He Hr Hf.
  destruct (missingField_false body Hm)
    as (fn & ln & em & ph & pw & Hfn & Hln & Hem & Hph & Hpw
        & Nfn & Nln & Nem & Nph & Npw).
  unfold emailExists, validRole, freshId, createUser, User_findOne,
    User_save in *.
  unfold missingField in Hm. run_M. rewrite Hm.
  rewrite Hfn, Hln, Hem, Hph, Hpw in *. simpl in *.
  rewrite find_is_Some_existsb, He. simpl.
  unfold validate; simpl.
  rewrite Hr.
  apply String.eqb_neq in Nfn, Nln, Nem, Nph, Npw.
  rewrite Nfn, Nln, Nem, Nph, Npw. simpl.
  apply bool_decide_eq_false in Hf.
  rewrite (bool_decide_eq_true_2 (is_Some _)).
  2:{ destruct (findById (newObjectId env) (Users (db w))); [eauto|done]. }
  simpl. unfold withCalls. destruct w as [[] ?]; simpl.
  by rewrite <- app_assoc.
Qed.

Lemma createUser_created env body w :
  missingField body = false → emailExists body w = false →
  validRole body = true → freshId env w = true →
  createUser env body w
  = (Return (createdResponse (createdUser env body)),
     withCalls w [Call_User_findOne (JS.toString (p_email body));
                  Call_User_save (newObjectId env)]
               (Users (db w) ++ [createdUser env body])).
Proof.
  intros Hm He Hr Hf.
  destruct (missingField_false body Hm)
    as (fn & ln & em & ph & pw & Hfn & Hln & Hem & Hph & Hpw
        & Nfn & Nln & Nem & Nph & Npw).
  unfold emailExists, validRole, freshId, createUser, User_findOne,
    User_save, createdResponse, createdUser in *.
  unfold missingField in Hm. run_M. rewrite Hm.
  rewrite Hfn, Hln, Hem, Hph, Hpw in *. simpl in *.
  rewrite find_is_Some_existsb, He. simpl.
  unfold validate; simpl.
  rewrite Hr.
  apply String.eqb_neq in Nfn, Nln, Nem, Nph, Npw.
  rewrite Nfn, Nln, Nem, Nph, Npw. simpl.
  apply bool_decide_eq_true in Hf. rewrite Hf.
  rewrite (bool_decide_eq_false_2 (is_Some _)) by (by intros [? ?]).
  rewrite emailTaken_existsb by done.
  simpl. unfold withCalls. destruct w as [[] ?]; simpl.
  by rewrite <- app_assoc.
Qed.

End CreateUser.

(** ** Listing and updating users *)

Section UpdateUser.
Context `{ObjectIds} `{BcryptCore} `{!StoreBehaviour}.

Lemma getAllUsers_eq w :
  getAllUsers w
  = (Return (usersListedResponse (Users (db w))),
     withCalls w [Call_User_find] (Users (db w))).
Proof.
  unfold getAllUsers, User_find_no_password, withCalls. run_M.
  by destruct w as [[] ?].
Qed.

Lemma strippedBody_eq (body : UpdateBody) :
  (if JS.truthy (p_password (b_fields body))
   then delete_body_password body else body) = strippedBody body.
Proof.
  unfold strippedBody, strippedUpdate, delete_body_password.
  destruct body as [f o]; simpl. by destruct (JS.truthy (p_password f)).
Qed.

(** The handler, case by case. *)
Lemma updateUser_eq id body w :
  let us := Users (db w) in
  let call := Call_User_findByIdAndUpdate id (strippedBody body) in
  updateUser id body w
  = match castObjectId id with
    | None => (Return updateFailedResponse, withCalls w [call] us)
    | Some oid =>
        if castUpdate (strippedBody body) then
          match findById oid us with
          | None => (Return userNotFoundResponse, withCalls w [call] us)
          | Some u =>
              match updatedBy body u with
              | None => (Return updateFailedResponse, withCalls w [call] us)
              | Some u' =>
                  if emailTaken oid (email u') us
                  then (Return updateFailedResponse, withCalls w [call] us)
                  else (Return (updatedResponse u'),
                        withCalls w [call] (replaceById oid u' us))
              end
          end
        else (Return updateFailedResponse, withCalls w [call] us)
    end.
Proof.
  unfold updateUser, updatedBy. rewrite strippedBody_eq.
  unfold User_findByIdAndUpdate, withCalls.
  run_M. destruct w as [[us gs] cs]; simpl.
  destruct (castObjectId id) as [oid|]; simpl; [|done].
  destruct (castUpdate (strippedBody body)); simpl; [|done].
  destruct (findById oid us) as [u|]; simpl; [|done].
  destruct (updated (strippedBody body) u) as [u'|]; simpl; [|done].
  by destruct (emailTaken _ _ us).
Qed.

(** A body of plain fields: the cast looks at [createdAt], the update sets
    the fields. *)
Lemma castUpdate_plain (body : UpdateBody) :
  b_other body = None →
  castUpdate (strippedBody body)
  = match p_createdAt (b_fields body) with
    | Some t => isDate t
    | None => true
    end.
Proof.
  intros Ho. unfold castUpdate, strippedBody, strippedUpdate. simpl.
  rewrite Ho. by destruct (JS.truthy (p_password (b_fields body))).
Qed.

Lemma updatedBy_plain (body : UpdateBody) u :
  b_other body = None →
  updatedBy body u = Some (apply_update (strippedUpdate (b_fields body)) u).
Proof. intros Ho. unfold updatedBy, updated, strippedBody. simpl. by rewrite Ho. Qed.

(** Whatever the update document, the identifier stays. *)
Lemma updatedBy_id (body : UpdateBody) u u' :
  updatedBy body u = Some u' → _id u' = _id u.
Proof.
  unfold updatedBy, updated.
  destruct (b_other (strippedBody body)) as [o|].
  - apply applyOther_id.
  - intros [= <-]. reflexivity.
Qed.

Lemma findById_Some oid (us : list IUser) u :
  findById oid us = Some u → _id u = oid.
Proof.
  unfold findById. intros [_ Hu]%find_some. by apply bool_decide_eq_true in Hu.
Qed.

Lemma findById_None oid (us : list IUser) :
  findById oid us = None ↔ ∀ u, u ∈ us → _id u ≠ oid.
Proof.
  unfold findById. split.
  - intros Hn u Hu%list_elem_of_In Hid.
    apply (find_none _ _ Hn) in Hu. by rewrite bool_decide_eq_true_2 in Hu.
  - intros Hall. induction us as [|u us IH]; simpl; [done|].
    rewrite bool_decide_eq_false_2; [|apply Hall; by left].
    apply IH. intros u' Hu'. apply Hall. by right.
Qed.

(** Replacing the document of an identifier by one with the same
    identifier: a lookup finds the replacement or what it found before. *)
Lemma findById_replaceById oid oid' u' (us : list IUser) :
  _id u' = oid →
  findById oid' (replaceById oid u' us)
  = (λ u, if bool_decide (_id u = oid) then u' else u) <$> findById oid' us.
Proof.
  intros Hid. unfold findById, replaceById.
  induction us as [|u us IH]; [done|].
  rewrite fmap_cons. simpl find at 1 2. rewrite IH. clear IH.
  destruct (bool_decide (_id u = oid)) eqn:Hu.
  - apply bool_decide_eq_true in Hu.
    replace (_id u') with (_id u) by congruence.
    destruct (bool_decide (_id u = oid')); simpl; [|done].
    by rewrite bool_decide_eq_true_2.
  - destruct (bool_decide (_id u = oid')); simpl; [|done].
    by rewrite Hu.
Qed.

(** A field that the update document does not touch is read the same after
    the update, for every user. *)
Lemma updateUser_frame {A} (field : IUser → A) id body w :
  (∀ u u', updatedBy body u = Some u' → field u' = field u) →
  ∀ oid, field <$> findById oid (Users (db (updateUser id body w).2))
         = field <$> findById oid (Users (db w)).
Proof.
  intros Hfield oid'. rewrite updateUser_eq. simpl.
  destruct (castObjectId id) as [oid|]; simpl; [|done].
  destruct (castUpdate _); simpl; [|done].
  destruct (findById oid (Users (db w))) as [u|] eqn:Hu; simpl; [|done].
  destruct (updatedBy body u) as [u'|] eqn:Hu'; simpl; [|done].
  destruct (emailTaken _ _ _); simpl; [done|].
  rewrite findById_replaceById
    by (rewrite (updatedBy_id _ _ _ Hu'); by eapply findById_Some).
  destruct (findById oid' (Users (db w))) as [u1|] eqn:Hu1; simpl; [|done].
  destruct (bool_decide (_id u1 = oid)) eqn:Hid; [|done].
  apply bool_decide_eq_true in Hid.
  assert (oid' = oid) as -> by (apply findById_Some in Hu1; congruence).
  assert (u1 = u) as -> by congruence.
  by rewrite (Hfield _ _ Hu').
Qed.

End UpdateUser.

(** ** Credentials: the hash, the hook, the comparison *)

Section Credentials.
Context `{ObjectIds} `{BcryptCore} `{!StoreBehaviour}.

Lemma length_app (a b : string) :
  String.length (a +:+ b) = (String.length a + String.length b)%nat.
Proof. induction a as [|c a IH]; simpl; [done | by rewrite IH]. Qed.

Lemma substring_app_prefix (a b : string) :
  substring 0 (String.length a) (a +:+ b) = a.
Proof.
  induction a as [|c a IH]; simpl.
  - by destruct b.
  - by rewrite IH.
Qed.

Lemma genSalt_length rounds rnd :
  String.length (bcrypt.genSalt rounds rnd) = (7 + String.length rnd)%nat.
Proof. unfold bcrypt.genSalt. by rewrite !length_app. Qed.

Lemma hash_length s rounds rnd :
  digestLength → String.length rnd = 22%nat →
  String.length (bcrypt.hash s rounds rnd) = 60%nat.
Proof.
  unfold digestLength. intros Hd Hr.
  unfold bcrypt.hash, bcrypt.hashWithSalt.
  rewrite length_app, genSalt_length, Hd, Hr. reflexivity.
Qed.

(** Comparing against a hash re-hashes the candidate under the salt of
    the hash. *)
Lemma compare_hash c s rounds rnd :
  digestLength → String.length rnd = 22%nat →
  bcrypt.compare c (bcrypt.hash s rounds rnd)
  = String.eqb (bcrypt.hashWithSalt c (bcrypt.genSalt rounds rnd))
               (bcrypt.hash s rounds rnd).
Proof.
  intros Hd Hr. unfold bcrypt.compare.
  rewrite hash_length by done.
  change (negb (Nat.eqb 60 60)) with false. cbv iota.
  pose proof (substring_app_prefix (bcrypt.genSalt rounds rnd)
                (crypt_raw (bcrypt.genSalt rounds rnd) s)) as E.
  rewrite genSalt_length, Hr in E.
  change (7 + 22)%nat with 29%nat in E.
  unfold bcrypt.hash at 1. unfold bcrypt.hashWithSalt at 2.
  by rewrite E.
Qed.

Lemma findById_app_new oid (us : list IUser) u :
  findById oid us = None → _id u = oid →
  findById oid (us ++ [u]) = Some u.
Proof.
  unfold findById. intros Hn Hu.
  induction us as [|u0 us IH]; simpl in *.
  - by rewrite bool_decide_eq_true_2.
  - destruct (bool_decide (_id u0 = oid)); [done | auto].
Qed.

Lemma createUser_201 env body w r w' :
  createUser env body w = (Return r, w') → status r = 201 →
  missingField body = false ∧ emailExists body w = false
  ∧ validRole body = true ∧ freshId env w = true.
Proof.
  intros Hrun Hst.
  destruct (missingField body) eqn:Hm.
  { rewrite createUser_missing in Hrun by done.
    injection Hrun as <- <-. done. }
  destruct (emailExists body w) eqn:He.
  { rewrite createUser_duplicate in Hrun by done.
    injection Hrun as <- <-. done. }
  destruct (validRole body) eqn:Hr.
  2:{ rewrite createUser_invalid_role in Hrun by done.
      injection Hrun as <- <-. done. }
  destruct (freshId env w) eqn:Hf; [done|].
  rewrite createUser_id_taken in Hrun by done.
  injection Hrun as <- <-. done.
Qed.

(** C8: right after a user is created with plaintext password [p],
    [comparePassword] on the stored user accepts [p]; and it accepts a
    candidate exactly when hashing the candidate under the same cost and
    salt gives the stored hash. *)
Theorem created_user_password_verifies (env : Env) (body : PartialUser)
    (w w' : World) (r : Response) (p : string) :
  digestLength → saltLength env →
  createUser env body w = (Return r, w') → status r = 201 →
  p_password body = Some p →
  ∃ u, findById (newObjectId env) (Users (db w')) = Some u
       ∧ password u = bcrypt.hash p 12 (saltRandom env)
       ∧ comparePassword u p = true
       ∧ ∀ candidate,
           comparePassword u candidate = true
           ↔ bcrypt.hashWithSalt candidate
               (bcrypt.genSalt 12 (saltRandom env)) = password u.
Proof.
  intros Hd Hs Hrun Hst Hp.
  destruct (createUser_201 _ _ _ _ _ Hrun Hst) as (Hm & He & Hr & Hf).
  rewrite createUser_created in Hrun by done.
  injection Hrun as <- <-. simpl.
  exists (createdUser env body).
  assert (password (createdUser env body)
          = bcrypt.hash p 12 (saltRandom env)) as Hpw.
  { unfold createdUser. simpl. by rewrite Hp. }
  split_and!.
  - apply findById_app_new; [|done].
    unfold freshId in Hf. by apply bool_decide_eq_true in Hf.
  - done.
  - unfold comparePassword. rewrite Hpw, compare_hash by done.
    apply String.eqb_refl.
  - intros c. unfold comparePassword. rewrite Hpw, compare_hash by done.
    apply String.eqb_eq.
Qed.


Lemma pre_save_unmodified env d :
  isModified d "password" = false → pre_save env d = Some d.
Proof. intros Hm. unfold pre_save. by rewrite Hm. Qed.

(** How the password path comes to be modified: a document built from
    fields that carry a password, and a password assigned a new value; a
    document loaded from the store has nothing modified. *)
Lemma new_User_password_modified env fields pw :
  p_password fields = Some pw →
  isModified (new_User env fields) "password" = true.
Proof.
  intros Hp. unfold isModified, new_User, givenPaths. simpl. rewrite Hp.
  apply bool_decide_eq_true. rewrite !elem_of_app. simpl.
  do 4 right. left. apply list_elem_of_singleton. done.
Qed.

Lemma set_password_modified pw d :
  p_password (d_fields d) ≠ Some pw →
  isModified (set_password pw d) "password" = true
  ∧ p_password (d_fields (set_password pw d)) = Some pw.
Proof.
  intros Hne. unfold set_password. rewrite bool_decide_eq_false_2 by done.
  split; [|done]. apply bool_decide_eq_true. simpl. by left.
Qed.

Lemma hydrate_unmodified u path : isModified (hydrate u) path = false.
Proof. apply bool_decide_eq_false. simpl. apply not_elem_of_nil. Qed.






End Credentials.

(** ** What the user handlers answer and store *)

Section UserHandlers.
Context `{ObjectIds} `{BcryptCore} `{!StoreBehaviour}.

Lemma truthy_false (v : option string) :
  JS.truthy v = false ↔ absentOrEmpty v.
Proof.
  unfold absentOrEmpty. destruct v as [s|]; simpl.
  - rewrite negb_false_iff, String.eqb_eq. split; [by right; f_equal|].
    intros [|[=]]; done.
  - split; [by left | done].
Qed.

Lemma missingField_spec body :
  missingField body = true ↔ requiredMissing body.
Proof.
  unfold missingField, requiredMissing.
  rewrite !orb_true_iff, !negb_true_iff, !truthy_false. tauto.
Qed.



(** C5: whatever the store holds and whatever the request carries, no
    user object in the answer of [getAllUsers], [createUser] or
    [updateUser] has a password key. *)
Theorem responses_carry_no_password (env : Env) (id : string)
    (body : PartialUser) (update : UpdateBody) (w : World) :
  ∃ listed created updated w1 w2 w3,
    getAllUsers w = (Return listed, w1)
    ∧ createUser env body w = (Return created, w2)
    ∧ updateUser id update w = (Return updated, w3)
    ∧ Forall (λ o, o_password o = None)
             (payloadUsers listed ++ payloadUsers created
              ++ payloadUsers updated).
Proof.
  rewrite getAllUsers_eq, updateUser_eq.
  assert (∃ r w2, createUser env body w = (Return r, w2)
                  ∧ Forall (λ o, o_password o = None) (payloadUsers r))
    as (created & w2 & -> & Hc).
  { destruct (missingField body) eqn:Hm.
    { rewrite createUser_missing by done. eexists _, _. split; [done|].
      constructor. }
    destruct (emailExists body w) eqn:He.
    { rewrite createUser_duplicate by done. eexists _, _.
      split; [done|]. constructor. }
    destruct (validRole body) eqn:Hr.
    2:{ rewrite createUser_invalid_role by done. eexists _, _.
        split; [done|]. constructor. }
    destruct (freshId env w) eqn:Hf.
    - rewrite createUser_created by done. eexists _, _. split; [done|].
      by repeat constructor.
    - rewrite createUser_id_taken by done. eexists _, _. split; [done|].
      constructor. }
  assert (Forall (λ o : UserObject, o_password o = None)
            (payloadUsers (usersListedResponse (Users (db w))))) as Hl.
  { simpl. apply Forall_fmap, Forall_forall. done. }
  destruct (castObjectId id) as [oid|]; simpl.
  2:{ eexists _, _, _, _, _, _. split_and!; try done.
      rewrite !Forall_app. split_and!; [done | done | constructor]. }
  destruct (castUpdate _); simpl.
  2:{ eexists _, _, _, _, _, _. split_and!; try done.
      rewrite !Forall_app. split_and!; [done | done | constructor]. }
  destruct (findById oid (Users (db w))) as [u|]; simpl.
  2:{ eexists _, _, _, _, _, _. split_and!; try done.
      rewrite !Forall_app. split_and!; [done | done | constructor]. }
  destruct (updatedBy update u) as [u'|]; simpl.
  2:{ eexists _, _, _, _, _, _. split_and!; try done.
      rewrite !Forall_app. split_and!; [done | done | constructor]. }
  destruct (emailTaken _ _ _); eexists _, _, _, _, _, _;
    (split_and!; try done); rewrite !Forall_app;
    (split_and!; [done | done | by repeat constructor]).
Qed.


End UserHandlers.

(** ** What an update leaves alone, and what it does not *)

Section UpdateFrame.
Context `{ObjectIds} `{BcryptCore} `{!StoreBehaviour}.

(** A non-empty password in a body of plain fields is removed from the
    update document, and no stored password changes. *)
Lemma updateUser_drops_truthy_password id body w :
  b_other body = None →
  JS.truthy (p_password (b_fields body)) = true →
  p_password (b_fields (strippedBody body)) = None
  ∧ ∀ oid, password <$> findById oid (Users (db (updateUser id body w).2))
           = password <$> findById oid (Users (db w)).
Proof.
  intros Ho Ht. split.
  - unfold strippedBody, strippedUpdate. simpl. by rewrite Ht.
  - apply updateUser_frame. intros u u'.
    rewrite updatedBy_plain by done. intros [= <-].
    unfold strippedUpdate. by rewrite Ht.
Qed.

Lemma emailTaken_self oid (us : list IUser) u :
  findById oid us = Some u →
  (∀ u', u' ∈ us → email u' = email u → _id u' = oid) →
  emailTaken oid (email u) us = false.
Proof.
  intros _ Huniq. unfold emailTaken.
  apply not_true_iff_false. rewrite existsb_exists.
  intros (u' & Hin%list_elem_of_In & Hu').
  apply andb_true_iff in Hu' as [Hne%negb_true_iff He%String.eqb_eq].
  apply bool_decide_eq_false in Hne. auto.
Qed.

(** C1 on the code: an update whose body carries the empty string as
    password is not stripped of it - the update document handed to the
    store still has the password field - and the stored hash of the target
    is overwritten by the empty string, which no candidate verifies
    against. *)
Theorem updateUser_empty_password_overwrites (id : string) (oid : ObjectId)
    (u : IUser) (w : World) :
  castObjectId id = Some oid →
  findById oid (Users (db w)) = Some u →
  (∀ u', u' ∈ Users (db w) → email u' = email u → _id u' = oid) →
  ∃ r w' u',
    updateUser id (plainBody (passwordOnly "")) w = (Return r, w')
    ∧ status r = 200
    ∧ calls w'
      = calls w
        ++ [Call_User_findByIdAndUpdate id (plainBody (passwordOnly ""))]
    ∧ findById oid (Users (db w')) = Some u'
    ∧ password u' = ""
    ∧ ∀ candidate, comparePassword u' candidate = false.
Proof.
  intros Hc Hu Huniq. rewrite updateUser_eq. cbv zeta. rewrite Hc, Hu.
  change (strippedBody (plainBody (passwordOnly "")))
    with (plainBody (passwordOnly "")).
  change (castUpdate (plainBody (passwordOnly ""))) with true. cbv iota.
  change (updatedBy (plainBody (passwordOnly "")) u)
    with (Some (apply_update (passwordOnly "") u)). cbv iota beta.
  change (email (apply_update (passwordOnly "") u)) with (email u).
  rewrite (emailTaken_self _ _ _ Hu Huniq).
  eexists _, _, _. split_and!; try done.
  - simpl. pose proof (findById_Some _ _ _ Hu) as Hid.
    rewrite findById_replaceById by done. rewrite Hu. simpl.
    by rewrite bool_decide_eq_true_2.
  - done.
  - done.
Qed.

(** C9, as the code has it: a created user's [createdAt] is the time of
    its creation.  For an update whose body is a plain object of fields
    (no other key): with no [createdAt] field, every stored [createdAt]
    stays as it was; with a [createdAt] that is a date, an update that
    succeeds writes it over the target's; with a [createdAt] that is no
    date, the update fails with 500 and stores nothing. *)
Theorem createdAt_changes_only_when_sent (env : Env) (id : string)
    (body : PartialUser) (update : UpdateBody) (w : World) :
  (∀ r w', createUser env body w = (Return r, w') → status r = 201 →
     createdAt <$> findById (newObjectId env) (Users (db w'))
     = Some (now env))
  ∧ (b_other update = None → p_createdAt (b_fields update) = None →
     ∀ oid,
       createdAt <$> findById oid (Users (db (updateUser id update w).2))
       = createdAt <$> findById oid (Users (db w)))
  ∧ (∀ t r w', b_other update = None →
       p_createdAt (b_fields update) = Some t →
       updateUser id update w = (Return r, w') → status r = 200 →
       isDate t = true
       ∧ ∃ oid, castObjectId id = Some oid
                ∧ createdAt <$> findById oid (Users (db w')) = Some t)
  ∧ (∀ t, b_other update = None →
       p_createdAt (b_fields update) = Some t → isDate t = false →
       ∃ w', updateUser id update w = (Return updateFailedResponse, w')
             ∧ status updateFailedResponse = 500 ∧ db w' = db w).
Proof.
  split_and!.
  - intros r w' Hrun Hst.
    destruct (createUser_201 _ _ _ _ _ Hrun Hst) as (Hm & He & Hr & Hf).
    rewrite createUser_created in Hrun by done.
    apply pair_equal_spec in Hrun as [_ <-]. simpl.
    rewrite findById_app_new; [done| |done].
    unfold freshId in Hf. by apply bool_decide_eq_true in Hf.
  - intros Ho Hnone. apply updateUser_frame. intros u u'.
    rewrite updatedBy_plain by done. intros [= <-].
    unfold strippedUpdate. simpl.
    destruct (JS.truthy (p_password (b_fields update))); simpl;
      by rewrite Hnone.
  - intros t r w' Ho Ht Hrun Hst. rewrite updateUser_eq in Hrun.
    simpl in Hrun.
    destruct (castObjectId id) as [oid|]; simpl in Hrun.
    2:{ apply pair_equal_spec in Hrun as [[= <-] _]. done. }
    rewrite castUpdate_plain, Ht in Hrun by done.
    destruct (isDate t); simpl in Hrun.
    2:{ apply pair_equal_spec in Hrun as [[= <-] _]. done. }
    split; [done|].
    destruct (findById oid (Users (db w))) as [u|] eqn:Hu; simpl in Hrun.
    2:{ apply pair_equal_spec in Hrun as [[= <-] _]. done. }
    rewrite updatedBy_plain in Hrun by done.
    destruct (emailTaken _ _ _); simpl in Hrun.
    { apply pair_equal_spec in Hrun as [[= <-] _]. done. }
    apply pair_equal_spec in Hrun as [_ <-]. exists oid. split; [done|].
    simpl. pose proof (findById_Some _ _ _ Hu) as Hid.
    rewrite findById_replaceById by done. rewrite Hu. simpl.
    rewrite bool_decide_eq_true_2 by done. simpl.
    unfold strippedUpdate.
    destruct (JS.truthy (p_password (b_fields update))); simpl;
      by rewrite Ht.
  - intros t Ho Ht Hd. rewrite updateUser_eq. simpl.
    destruct (castObjectId id) as [oid|]; simpl.
    2:{ eexists. split_and!; [done..|]. by destruct w as [[] ?]. }
    rewrite castUpdate_plain, Ht, Hd by done.
    eexists. split_and!; [done..|]. by destruct w as [[] ?].
Qed.

End UpdateFrame.

(** ** Listing the games *)

Section Games.
Context `{ObjectIds} `{BcryptCore} `{!StoreBehaviour}.

(** The handler, case by case: a negative offset is rejected by the
    store. *)
Lemma getAllGames_eq query w :
  getAllGames query w
  = (Return (if (offsetOf query <? 0)%Z then gamesFailedResponse
             else gamesListedResponse query w),
     withCalls w (gamesCalls query) (Users (db w))).
Proof.
  unfold getAllGames, Game_find_page, Game_countDocuments,
    gamesListedResponse, limited, withCalls, gamesCalls, offsetOf, pageOf,
    limitOf.
  run_M. destruct w as [[us gs] cs]; simpl.
  destruct (_ <? 0)%Z; simpl; by rewrite <- app_assoc.
Qed.

Lemma or_default_NaN b : JS.or None b = b.
Proof. done. Qed.

Lemma parseInt_absent : JS.parseInt None = None.
Proof. reflexivity. Qed.

Lemma or_nonzero a b : b ≠ 0 → JS.or a b ≠ 0.
Proof.
  intros Hb. unfold JS.or. destruct a as [n|]; [|done].
  destruct (n =? 0)%Z eqn:Hn; [done|]. by apply Z.eqb_neq.
Qed.

(** The limit is never zero, so the division of the page count is
    defined. *)
Lemma limitOf_nonzero query : limitOf query ≠ 0.
Proof. by apply or_nonzero. Qed.

(** [Math.ceil(a / b)] for a positive [b] is the least number of blocks
    of size [b] that cover [a]. *)
Lemma ceil_div_spec (a b : Z) :
  0 < b → (JS.ceil_div a b - 1) * b < a ≤ JS.ceil_div a b * b.
Proof.
  intros Hb. unfold JS.ceil_div.
  set (x := (inject_Z a / inject_Z b)%Q).
  assert (inject_Z 0 < inject_Z b)%Q as HbQ by (by rewrite <- Zlt_Qlt).
  assert (x * inject_Z b == inject_Z a)%Q as Hx.
  { unfold x. unfold Qdiv. rewrite <- Qmult_assoc.
    rewrite (Qmult_comm (/ inject_Z b)), Qmult_inv_r, Qmult_1_r; [done|].
    intros E. rewrite E in HbQ. by apply Qlt_irrefl in HbQ. }
  split.
  - rewrite Zlt_Qlt, inject_Z_mult, <- Hx.
    apply Qmult_lt_compat_r; [done|]. apply Qceiling_lt.
  - rewrite Zle_Qle, inject_Z_mult, <- Hx.
    apply Qmult_le_compat_r; [|by apply Qlt_le_weak]. apply Qle_ceiling.
Qed.

(** The order of a listing: newest first, and an arrangement of the stored
    games. *)
Lemma sortGames_length skip limit (gs : list Game) :
  List.length (sortGames skip limit gs) = List.length gs.
Proof. apply Permutation_length, sortGames_perm. Qed.

Lemma StronglySorted_sublist {A} (R : relation A) (l k : list A) :
  l `sublist_of` k → StronglySorted R k → StronglySorted R l.
Proof.
  induction 1 as [|x l k Hs IH|x l k Hs IH]; intros Hk; [done|..].
  - apply StronglySorted_inv in Hk as [Hk Hx]. constructor; [auto|].
    rewrite Forall_forall in *. intros y Hy. apply Hx.
    by eapply elem_of_sublist.
  - apply StronglySorted_inv in Hk as [Hk _]. auto.
Qed.

Lemma prefix_sublist_of {A} (l k : list A) :
  l `prefix_of` k → l `sublist_of` k.
Proof. intros [k' ->]. by apply sublist_inserts_r. Qed.

Lemma applyLimit_pos limit (l : list Game) :
  0 < limit → applyLimit limit l = take (Z.to_nat limit) l.
Proof.
  intros Hl. unfold applyLimit.
  rewrite (proj2 (Z.eqb_neq _ _)) by lia.
  by rewrite (proj2 (Z.ltb_lt _ _)) by lia.
Qed.

Lemma applyLimit_neg limit (l : list Game) :
  limit < 0 → applyLimit limit l = singleBatch (take (Z.to_nat (- limit)) l).
Proof.
  intros Hl. unfold applyLimit.
  rewrite (proj2 (Z.eqb_neq _ _)) by lia.
  by rewrite (proj2 (Z.ltb_ge _ _)) by lia.
Qed.

Lemma applyLimit_sublist limit (l : list Game) :
  applyLimit limit l `sublist_of` l.
Proof.
  unfold applyLimit. destruct (limit =? 0)%Z; [done|].
  destruct (0 <? limit)%Z; [apply sublist_take|].
  etrans; [apply prefix_sublist_of, singleBatch_prefix | apply sublist_take].
Qed.

Lemma applyLimit_nil limit : applyLimit limit [] = [].
Proof.
  apply sublist_nil_r. apply applyLimit_sublist.
Qed.

Lemma limited_sublist skip limit (gs : list Game) :
  limited skip limit gs `sublist_of` sortGames skip limit gs.
Proof.
  unfold limited. etrans; [apply applyLimit_sublist | apply sublist_drop].
Qed.

Lemma limited_subseteq skip limit (gs : list Game) :
  limited skip limit gs ⊆ gs.
Proof.
  intros g Hg. rewrite <- (sortGames_perm skip limit gs).
  eapply elem_of_sublist; [done | apply limited_sublist].
Qed.

Lemma limited_pos skip limit (gs : list Game) :
  0 < limit →
  limited skip limit gs
  = take (Z.to_nat limit) (drop (Z.to_nat skip) (sortGames skip limit gs)).
Proof. intros Hl. unfold limited. by rewrite applyLimit_pos. Qed.

Lemma limited_neg skip limit (gs : list Game) :
  limit < 0 →
  limited skip limit gs
  `prefix_of` take (Z.to_nat (- limit))
                (drop (Z.to_nat skip) (sortGames skip limit gs)).
Proof.
  intros Hl. unfold limited. rewrite applyLimit_neg by done.
  apply singleBatch_prefix.
Qed.

Lemma limited_nil skip limit : limited skip limit [] = [].
Proof.
  apply sublist_nil_r. etrans; [apply limited_sublist|].
  pose proof (sortGames_perm skip limit []) as Hp.
  apply Permutation_nil_r in Hp. by rewrite Hp.
Qed.

Lemma limited_sorted skip limit (gs : list Game) :
  StronglySorted newer_first (limited skip limit gs).
Proof.
  eapply StronglySorted_sublist;
    [apply limited_sublist | apply sortGames_sorted].
Qed.

(** C4, as the code has it, for a request on whose page, limit and offset
    the arithmetic of the handler is exact.  Page and limit are 1 and 10
    when the parameter is absent, not a number or zero, and the number
    parsed otherwise; the offset is (page - 1) * limit.  With a negative
    offset the store rejects the query and the answer is 500.  Otherwise
    the answer is 200: the stored games are taken newest first, the
    offset is skipped, and the items are the next [limit] of them when the
    limit is positive, or a first part of the next [-limit] of them (a
    single batch) when it is negative; the pagination is
    [{total, page, pages = ceil(total / limit), limit}], [pages] being for
    a positive limit the least number of pages that hold [total] games; on
    an empty store the items are the empty list, with total and pages
    0. *)
Theorem getAllGames_paginates (query : GamesQuery) (w : World) :
  exactPaging query →
  JS.isSafeInteger (Z.of_nat (List.length (Games (db w)))) →
  let gs := Games (db w) in
  let sorted := sortGames (offsetOf query) (limitOf query) gs in
  let skipped := drop (Z.to_nat (offsetOf query)) sorted in
  ∃ r w',
    getAllGames query w = (Return r, w')
    ∧ (q_page query = None ∨ JS.parseInt (q_page query) = None
       ∨ JS.parseInt (q_page query) = Some 0 → pageOf query = 1)
    ∧ (q_limit query = None ∨ JS.parseInt (q_limit query) = None
       ∨ JS.parseInt (q_limit query) = Some 0 → limitOf query = 10)
    ∧ (∀ n, JS.parseInt (q_page query) = Some n → n ≠ 0 → pageOf query = n)
    ∧ (∀ n, JS.parseInt (q_limit query) = Some n → n ≠ 0 →
         limitOf query = n)
    ∧ offsetOf query = (pageOf query - 1) * limitOf query
    ∧ StronglySorted newer_first sorted
    ∧ sorted ≡ₚ gs
    ∧ (offsetOf query < 0 → r = gamesFailedResponse ∧ status r = 500)
    ∧ (0 ≤ offsetOf query →
       ∃ items pagination,
         r = respond 200 "Historique des parties récupéré avec succès"
               (Some (GamesData items pagination))
         ∧ total pagination = Z.of_nat (List.length gs)
         ∧ page pagination = pageOf query
         ∧ limit pagination = limitOf query
         ∧ pages pagination
           = JS.ceil_div (total pagination) (limit pagination)
         ∧ (0 < limitOf query →
            items
            = listing (Users (db w))
                (take (Z.to_nat (limitOf query)) skipped)
            ∧ (pages pagination - 1) * limit pagination < total pagination
            ∧ total pagination ≤ pages pagination * limit pagination)
         ∧ (limitOf query < 0 →
            ∃ batch,
              batch `prefix_of` take (Z.to_nat (- limitOf query)) skipped
              ∧ items = listing (Users (db w)) batch)
         ∧ (gs = [] →
            items = [] ∧ total pagination = 0 ∧ pages pagination = 0)).
Proof.
  intros _ _ gs sorted skipped. rewrite getAllGames_eq.
  eexists _, _. split; [reflexivity|].
  split_and!.
  - intros [Hq|[Hq|Hq]]; unfold pageOf; rewrite Hq; done.
  - intros [Hq|[Hq|Hq]]; unfold limitOf; rewrite Hq; done.
  - intros n Hq Hn. unfold pageOf. rewrite Hq. simpl.
    by rewrite (proj2 (Z.eqb_neq _ _)).
  - intros n Hq Hn. unfold limitOf. rewrite Hq. simpl.
    by rewrite (proj2 (Z.eqb_neq _ _)).
  - done.
  - apply sortGames_sorted.
  - apply sortGames_perm.
  - intros Ho. by rewrite (proj2 (Z.ltb_lt _ _) Ho).
  - intros Ho. rewrite (proj2 (Z.ltb_ge _ _) Ho). unfold gamesListedResponse.
    eexists _, _. split; [reflexivity|]. simpl.
    split_and!; try done.
    + intros Hl. split; [by rewrite limited_pos|].
      by apply ceil_div_spec.
    + intros Hl. eexists. split; [by apply limited_neg | done].
    + intros Hgs. fold gs. rewrite Hgs. rewrite limited_nil. done.
Qed.

Lemma formatGame_formats us g :
  formats us g (formatGame (populate_userId us g)).
Proof.
  unfold formats, formatGame, populate_userId, ownerOf. simpl.
  split_and!; try done.
  - intros Ho. destruct (userId g) as [oid|]; [|done]. by rewrite Ho.
  - intros u Ho. destruct (userId g) as [oid|]; [|done]. by rewrite Ho.
Qed.

(** A game resolves to no owner exactly when its reference is null or no
    stored user has the identifier it refers to. *)
Lemma ownerOf_None us g :
  ownerOf us g = None
  ↔ userId g = None
    ∨ ∃ oid, userId g = Some oid ∧ ∀ u, u ∈ us → _id u ≠ oid.
Proof.
  unfold ownerOf. destruct (userId g) as [oid|].
  - rewrite findById_None. split.
    + intros Hn. right. eauto.
    + intros [[=]|(oid' & [= <-] & Hn)]. done.
  - split; [by left | done].
Qed.

Lemma ownerOf_Some us g u :
  ownerOf us g = Some u → u ∈ us ∧ userId g = Some (_id u).
Proof.
  unfold ownerOf. destruct (userId g) as [oid|]; [|done].
  intros Hu. pose proof (findById_Some _ _ _ Hu) as <-.
  split; [|done]. unfold findById in Hu.
  apply find_some in Hu as [Hu _]. by apply list_elem_of_In.
Qed.

(** C7: a listing the store serves (exact paging, offset not negative) is
    answered 200 and its items are, one for one and in the same order, the
    games of the page the store returns, each with its own identifier,
    number, result, points and date: no game of the page is dropped,
    whatever its owner.  The item of a game whose owner reference is null
    or points to no stored user has a null [user]; the item of every other
    game carries the [_id], [firstName] and [lastName] of the stored user
    the reference points to. *)
Theorem dangling_owner_is_null (query : GamesQuery) (w : World) :
  exactPaging query → 0 ≤ offsetOf query →
  let us := Users (db w) in
  let returned := limited (offsetOf query) (limitOf query) (Games (db w)) in
  ∃ r w' items pg,
    getAllGames query w = (Return r, w')
    ∧ status r = 200
    ∧ data (json r) = Some (GamesData items pg)
    ∧ returned ⊆ Games (db w)
    ∧ (0 < limitOf query →
       returned
       = take (Z.to_nat (limitOf query))
           (drop (Z.to_nat (offsetOf query))
              (sortGames (offsetOf query) (limitOf query) (Games (db w)))))
    ∧ List.length items = List.length returned
    ∧ Forall2 (formats us) returned items
    ∧ (∀ i g item, returned !! i = Some g → items !! i = Some item →
         (userId g = None
          ∨ (∃ oid, userId g = Some oid ∧ ∀ u, u ∈ us → _id u ≠ oid) →
          user item = None)
         ∧ (∀ u, ownerOf us g = Some u →
              u ∈ us ∧ userId g = Some (_id u)
              ∧ user item
                = Some {| ref_id := _id u; ref_firstName := firstName u;
                          ref_lastName := lastName u |})).
Proof.
  intros _ Ho us returned. rewrite getAllGames_eq.
  rewrite (proj2 (Z.ltb_ge _ _) Ho). unfold gamesListedResponse.
  eexists _, _, _, _. split; [reflexivity|]. simpl.
  assert (Forall2 (formats us) returned
            (formatGame <$> (populate_userId us <$> returned))) as Hf.
  { apply Forall2_fmap_r, Forall2_fmap_r, Forall_Forall2_diag, Forall_forall.
    intros g _. apply formatGame_formats. }
  split_and!; try done.
  - apply limited_subseteq.
  - intros Hl. by apply limited_pos.
  - by rewrite !length_fmap.
  - intros i g item Hg Hitem.
    pose proof (Forall2_lookup_lr _ _ _ _ _ _ Hf Hg Hitem)
      as (_ & _ & _ & _ & _ & _ & Hnone & Hsome).
    split.
    + intros Hd. apply Hnone. by apply ownerOf_None.
    + intros u Hu. destruct (ownerOf_Some _ _ _ Hu) as [Hin Hid].
      split_and!; [done | done | by apply Hsome].
Qed.

End Games.

(** ** More on the games listing *)

Section GamesMore.
Context `{ObjectIds} `{BcryptCore} `{!StoreBehaviour}.

Lemma pageOf_nonzero query : pageOf query ≠ 0.
Proof. by apply or_nonzero. Qed.

Lemma gamesListed_eq query w :
  gamesListed query w
  = if (offsetOf query <? 0)%Z then []
    else listing (Users (db w))
           (limited (offsetOf query) (limitOf query) (Games (db w))).
Proof.
  unfold gamesListed. rewrite getAllGames_eq. simpl.
  by destruct (offsetOf query <? 0)%Z.
Qed.

(** X1: the two listings only read: whatever the request, and also when the
    games query is rejected, [getAllGames] and [getAllUsers] leave the store
    as it is; the first makes one find call and then the count call, the
    find being asked, when the arithmetic of the handler is exact on the
    request, for the offset and the limit computed from it; the second
    makes the one find call. *)
Theorem listings_read_only (query : GamesQuery) (w : World) :
  ∃ rg wg ru wu skip lim,
    getAllGames query w = (Return rg, wg)
    ∧ getAllUsers w = (Return ru, wu)
    ∧ db wg = db w ∧ db wu = db w
    ∧ calls wg
      = calls w ++ [Call_Game_find skip lim; Call_Game_countDocuments]
    ∧ (exactPaging query → skip = offsetOf query ∧ lim = limitOf query)
    ∧ calls wu = calls w ++ [Call_User_find].
Proof.
  rewrite getAllGames_eq, getAllUsers_eq. eexists _, _, _, _, _, _.
  split_and!; try done; simpl; by destruct w as [[] ?].
Qed.

(** X2: the page and the limit the handler works with are never 0: a
    parameter that parses to 0 is replaced by its default like an absent
    one, so the page count is never a division by zero and the store is
    never asked for an unlimited listing (the meaning of a limit of 0);
    with a page that parses to 0 and a limit on which the arithmetic is
    exact, nothing is skipped. *)
Theorem paging_never_zero (query : GamesQuery) (w : World) :
  ∃ r w' skip lim,
    getAllGames query w = (Return r, w')
    ∧ calls w'
      = calls w ++ [Call_Game_find skip lim; Call_Game_countDocuments]
    ∧ lim ≠ 0
    ∧ (JS.parseInt (q_page query) = Some 0 →
       JS.isSafeInteger (limitOf query) → skip = 0)
    ∧ (JS.parseInt (q_limit query) = Some 0 → lim = 10)
    ∧ ∀ items pg,
        data (json r) = Some (GamesData items pg) →
        page pg ≠ 0 ∧ limit pg ≠ 0
        ∧ (JS.parseInt (q_page query) = Some 0 → page pg = 1)
        ∧ (JS.parseInt (q_limit query) = Some 0 → limit pg = 10).
Proof.
  rewrite getAllGames_eq. eexists _, _, _, _. split; [reflexivity|].
  split; [by destruct w as [[] ?]|].
  split; [apply limitOf_nonzero|].
  assert (JS.parseInt (q_page query) = Some 0 → pageOf query = 1) as Hp.
  { intros Hq. unfold pageOf. by rewrite Hq. }
  assert (JS.parseInt (q_limit query) = Some 0 → limitOf query = 10) as Hl.
  { intros Hq. unfold limitOf. by rewrite Hq. }
  split_and!; [|done|].
  - intros Hq _. unfold offsetOf. rewrite Hp by done. lia.
  - intros items pg. destruct (offsetOf query <? 0)%Z; [done|].
    intros [= <- <-]. simpl.
    split_and!; [apply pageOf_nonzero | apply limitOf_nonzero | done | done].
Qed.

(** X3: for a request with accepted paging the listing is answered 200 and
    holds min(limit, total - offset) games, none when the offset is at or
    past the total: never more than the limit, and a page past the end is an
    empty page, not an error. *)
Theorem getAllGames_page_size (query : GamesQuery) (w : World) :
  acceptedPaging query →
  ∃ r w',
    getAllGames query w = (Return r, w')
    ∧ status r = 200
    ∧ List.length (itemsOf r)
      = (Z.to_nat (limitOf query)
         `min` (List.length (Games (db w)) - Z.to_nat (offsetOf query)))%nat
    ∧ Z.of_nat (List.length (itemsOf r)) ≤ limitOf query
    ∧ (Z.of_nat (List.length (Games (db w))) ≤ offsetOf query →
       itemsOf r = []).
Proof.
  intros (Hp & Hl & _). rewrite getAllGames_eq.
  assert (0 ≤ offsetOf query) as Ho by (unfold offsetOf; nia).
  rewrite (proj2 (Z.ltb_ge _ _) Ho). eexists _, _.
  split; [reflexivity|]. split; [done|].
  unfold itemsOf, gamesListedResponse. simpl.
  rewrite limited_pos by lia.
  rewrite !length_fmap, length_take, length_drop, sortGames_length.
  split_and!; [done | lia |].
  intros Hge. rewrite drop_ge; [by rewrite take_nil|].
  rewrite sortGames_length. lia.
Qed.

(** X4: the games of every listing come newest first: no listed game has a
    later creation timestamp than one listed before it, whatever the page
    and the limit. *)
Theorem getAllGames_newest_first (query : GamesQuery) (w : World) :
  ∃ r w',
    getAllGames query w = (Return r, w')
    ∧ StronglySorted listed_newer_first (itemsOf r).
Proof.
  rewrite getAllGames_eq. eexists _, _. split; [reflexivity|].
  destruct (offsetOf query <? 0)%Z; [constructor|].
  unfold itemsOf, gamesListedResponse. simpl.
  rewrite <- list_fmap_compose.
  apply (StronglySorted_fmap _ newer_first listed_newer_first);
    [|apply limited_sorted].
  intros a b Hab. exact Hab.
Qed.

Lemma NoDup_fmap_eq {A B} (f : A → B) (l : list A) x y :
  NoDup (f <$> l) → x ∈ l → y ∈ l → f x = f y → x = y.
Proof.
  induction l as [|a l IH]; intros Hnd Hx Hy Hf.
  { by apply elem_of_nil in Hx. }
  rewrite fmap_cons in Hnd. apply NoDup_cons in Hnd as [Ha Hnd].
  apply elem_of_cons in Hx as [->|Hx]; apply elem_of_cons in Hy as [->|Hy].
  - done.
  - exfalso. apply Ha. rewrite Hf. by apply list_elem_of_fmap_2.
  - exfalso. apply Ha. rewrite <- Hf. by apply list_elem_of_fmap_2.
  - by apply IH.
Qed.

(** When no two games were created at the same time there is one way only
    to list them newest first: every query finds them in the same
    order. *)
Lemma sortGames_unique skip limit skip' limit' (gs : list Game) :
  NoDup (g_createdAt <$> gs) →
  sortGames skip limit gs = sortGames skip' limit' gs.
Proof.
  intros Hnd.
  apply (StronglySorted_unique_strong newer_first);
    [|apply sortGames_sorted..|by rewrite !sortGames_perm].
  intros x1 x2 Hx1 Hx2 H12 H21.
  rewrite sortGames_perm in Hx1, Hx2.
  apply (NoDup_fmap_eq g_createdAt gs); [done..|].
  unfold newer_first in *. lia.
Qed.

(** Walking the pages: the first [n] pages of [limit] games, one after the
    other, are the first [n * limit] games of the sorted collection. *)
Lemma pages_concat (L : Z) (qs : list GamesQuery) (w : World) :
  1 ≤ L →
  NoDup (g_createdAt <$> Games (db w)) →
  (∀ i q, qs !! i = Some q → pageOf q = Z.of_nat (S i) ∧ limitOf q = L) →
  List.concat ((λ q, gamesListed q w) <$> qs)
  = listing (Users (db w))
      (take (List.length qs * Z.to_nat L)
            (sortGames 0 L (Games (db w)))).
Proof.
  intros HL Hnd. induction qs as [|q qs IH] using rev_ind; intros Hqs.
  { done. }
  rewrite fmap_app, concat_app, IH.
  2:{ intros i q' Hq'. apply Hqs. by apply lookup_app_l_Some. }
  simpl. rewrite app_nil_r.
  destruct (Hqs (List.length qs) q) as [Hp Hl].
  { by rewrite lookup_app_r, Nat.sub_diag. }
  rewrite gamesListed_eq.
  assert (offsetOf q = Z.of_nat (List.length qs) * L) as Ho.
  { unfold offsetOf. rewrite Hp, Hl. lia. }
  rewrite (proj2 (Z.ltb_ge _ _)) by nia.
  rewrite limited_pos by lia. rewrite Hl, Ho.
  rewrite (sortGames_unique (Z.of_nat (List.length qs) * L) L 0 L) by done.
  rewrite Z2Nat.inj_mul, Nat2Z.id by lia.
  unfold listing. rewrite <- !fmap_app. f_equal. f_equal.
  rewrite take_take_drop, List.length_app. simpl. f_equal. lia.
Qed.

(** X5: when no two games were created at the same time, pages 1 to n of
    the same limit, n pages being enough to hold every game and n * limit
    a number on which the arithmetic is exact, list every game exactly
    once: one after the other they are the whole collection, newest
    first. *)
Theorem getAllGames_pages_cover (L : Z) (qs : list GamesQuery) (w : World) :
  1 ≤ L →
  JS.isSafeInteger (Z.of_nat (List.length qs) * L) →
  NoDup (g_createdAt <$> Games (db w)) →
  (∀ i q, qs !! i = Some q → pageOf q = Z.of_nat (S i) ∧ limitOf q = L) →
  Z.of_nat (List.length (Games (db w))) ≤ Z.of_nat (List.length qs) * L →
  ∃ sorted,
    List.concat ((λ q, gamesListed q w) <$> qs)
    = listing (Users (db w)) sorted
    ∧ StronglySorted newer_first sorted
    ∧ sorted ≡ₚ Games (db w)
    ∧ Forall exactPaging qs.
Proof.
  intros HL Hsafe Hnd Hqs Hn. exists (sortGames 0 L (Games (db w))).
  split_and!; [|apply sortGames_sorted|apply sortGames_perm|].
  - rewrite (pages_concat L) by done. rewrite take_ge; [done|].
    rewrite sortGames_length. nia.
  - apply Forall_lookup. intros i q Hq.
    destruct (Hqs i q Hq) as [Hp Hl].
    apply lookup_lt_Some in Hq.
    unfold exactPaging, offsetOf, JS.isSafeInteger in *.
    rewrite Hp, Hl. unfold JS.MAX_SAFE_INTEGER in *. nia.
Qed.

End GamesMore.

(** ** More on creating a user *)

Section CreateMore.
Context `{ObjectIds} `{BcryptCore} `{!StoreBehaviour}.

Lemma freshId_spec env w :
  freshId env w = true ↔ ∀ u, u ∈ Users (db w) → _id u ≠ newObjectId env.
Proof.
  unfold freshId. rewrite bool_decide_eq_true. apply findById_None.
Qed.


(** X7: [createUser] reads six fields of the body and no other: two bodies
    that agree on firstName, lastName, email, phone, password and role get
    the same answer and leave the same store, whatever else they carry
    (points, bio, createdAt). *)
Theorem createUser_reads_six_fields (env : Env) (b1 b2 : PartialUser)
    (w : World) :
  sameCreateFields b1 b2 →
  createUser env b1 w = createUser env b2 w.
Proof.
  intros (E1 & E2 & E3 & E4 & E5 & E6). unfold createUser.
  by rewrite E1, E2, E3, E4, E5, E6.
Qed.

Lemma genSalt_nonempty rounds rnd s : bcrypt.hash s rounds rnd ≠ "".
Proof. done. Qed.

(** X8: the record a 201 stands for: it is appended to the users, is found
    under the identifier drawn for it, carries the submitted firstName,
    lastName, email and phone, a role that is 'user' or 'admin' ('user'
    unless 'admin' was asked for), 0 points, no bio and the time of creation,
    whatever points, bio or createdAt the body carried; its password is not
    empty; and the answer carries this record without its password. *)
Theorem createUser_stored_record (env : Env) (body : PartialUser)
    (w w' : World) (r : Response) :
  createUser env body w = (Return r, w') → status r = 201 →
  ∃ u,
    Users (db w') = Users (db w) ++ [u]
    ∧ findById (newObjectId env) (Users (db w')) = Some u
    ∧ _id u = newObjectId env
    ∧ p_firstName body = Some (firstName u)
    ∧ p_lastName body = Some (lastName u)
    ∧ p_email body = Some (email u)
    ∧ p_phone body = Some (phone u)
    ∧ firstName u ≠ "" ∧ lastName u ≠ "" ∧ email u ≠ "" ∧ phone u ≠ ""
    ∧ password u ≠ ""
    ∧ (role u = "user" ∨ role u = "admin")
    ∧ (role u = "admin" ↔ p_role body = Some "admin")
    ∧ points u = 0 ∧ bio u = None ∧ createdAt u = now env
    ∧ payloadUsers r = [delete_password (toObject u)].
Proof.
  intros Hrun Hst.
  destruct (createUser_201 _ _ _ _ _ Hrun Hst) as (Hm & He & Hr & Hf).
  rewrite createUser_created in Hrun by done.
  apply pair_equal_spec in Hrun as [[= <-] <-].
  destruct (missingField_false body Hm)
    as (fn & ln & em & ph & pw & Hfn & Hln & Hem & Hph & Hpw
        & Nfn & Nln & Nem & Nph & Npw).
  exists (createdUser env body). simpl.
  rewrite Hfn, Hln, Hem, Hph, Hpw. simpl.
  split_and!; try done.
  - apply findById_app_new; [|done].
    unfold freshId in Hf. by apply bool_decide_eq_true in Hf.
  - unfold validRole in Hr. apply bool_decide_eq_true in Hr.
    rewrite !elem_of_cons in Hr. destruct Hr as [?|[?|Hr]]; [auto..|].
    by apply elem_of_nil in Hr.
  - unfold or_string. destruct (p_role body) as [ro|]; simpl; [|done].
    destruct (String.eqb ro "") eqn:Hro; simpl.
    + apply String.eqb_eq in Hro as ->. done.
    + split; [by intros -> | by intros [= ->]].
Qed.

Lemma existsb_app_r {A} (f : A → bool) (l : list A) (x : A) :
  f x = true → existsb f (l ++ [x]) = true.
Proof.
  intros Hx. rewrite existsb_app. simpl. rewrite Hx.
  by rewrite orb_true_r.
Qed.

(** X9: after a user has been created, a second creation under the same
    email, with every required field there, is answered 400 (the email is
    taken) and stores nothing, whatever the other fields are. *)
Theorem createUser_twice_conflicts (env env2 : Env) (body body2 : PartialUser)
    (w w' : World) (r : Response) :
  createUser env body w = (Return r, w') → status r = 201 →
  ¬ requiredMissing body2 → p_email body2 = p_email body →
  ∃ w'',
    createUser env2 body2 w' = (Return duplicateEmailResponse, w'')
    ∧ status duplicateEmailResponse = 400
    ∧ db w'' = db w'.
Proof.
  intros Hrun Hst Hm2 Hem.
  destruct (createUser_201 _ _ _ _ _ Hrun Hst) as (Hm & He & Hr & Hf).
  rewrite createUser_created in Hrun by done.
  apply pair_equal_spec in Hrun as [_ <-].
  rewrite <- missingField_spec in Hm2. apply not_true_is_false in Hm2.
  rewrite createUser_duplicate; [by eexists|done|].
  unfold emailExists. simpl. apply existsb_app_r. simpl.
  rewrite Hem. apply String.eqb_refl.
Qed.

End CreateMore.

(** ** More on updating and deleting a user *)

Section UpdateDeleteMore.
Context `{ObjectIds} `{BcryptCore} `{!StoreBehaviour}.

Lemma replaceById_ids oid u' (us : list IUser) :
  _id u' = oid → _id <$> replaceById oid u' us = _id <$> us.
Proof.
  intros Hid. unfold replaceById. rewrite <- list_fmap_compose.
  apply list_fmap_ext. intros i u _. simpl.
  destruct (bool_decide (_id u = oid)) eqn:Hu; [|done].
  apply bool_decide_eq_true in Hu. congruence.
Qed.






Lemma deleteUser_eq req_user id w :
  let us := Users (db w) in
  let call := Call_User_findByIdAndDelete id in
  deleteUser req_user id w
  = if isSelf req_user id then (Return forbiddenSelfDelete, w)
    else
      match castObjectId id with
      | None => (Return deleteFailedResponse, withCalls w [call] us)
      | Some oid =>
          match findById oid us with
          | None => (Return userNotFoundResponse, withCalls w [call] us)
          | Some u =>
              (Return deletedResponse,
               withCalls w [call] (removeById oid us))
          end
      end.
Proof.
  unfold deleteUser, User_findByIdAndDelete, withCalls. run_M.
  destruct (isSelf req_user id); [done|].
  destruct w as [[us gs] cs]; simpl.
  destruct (castObjectId id) as [oid|]; simpl; [|done].
  by destruct (findById oid us).
Qed.

Lemma findById_removeById oid oid' (us : list IUser) :
  findById oid' (removeById oid us)
  = if bool_decide (oid' = oid) then None else findById oid' us.
Proof.
  unfold findById, removeById.
  induction us as [|u us IH]; simpl; [by case_bool_decide|].
  destruct (bool_decide (_id u = oid)) eqn:Hu; simpl.
  - rewrite IH. apply bool_decide_eq_true in Hu.
    destruct (bool_decide (oid' = oid)) eqn:Ho; [done|].
    apply bool_decide_eq_false in Ho.
    by rewrite bool_decide_eq_false_2 by congruence.
  - destruct (bool_decide (_id u = oid')) eqn:Hu'; [|done].
    apply bool_decide_eq_true in Hu'. apply bool_decide_eq_false in Hu.
    by rewrite bool_decide_eq_false_2 by congruence.
Qed.

Lemma removeById_sublist oid (us : list IUser) :
  removeById oid us `sublist_of` us.
Proof.
  unfold removeById. induction us as [|x us IH]; simpl; [done|].
  destruct (negb _); by constructor.
Qed.

(** X13: [deleteUser] answers 400, 500, 404 or 200: 400 exactly when the
    acting user's id is the target id; otherwise 500 exactly when the id is
    no identifier, 404 exactly when it is the identifier of no stored user,
    and 200 exactly when a stored user has it; unless it answers 200 the
    store is as before. *)
Theorem deleteUser_status (req_user : option AuthUser) (id : string)
    (w : World) :
  ∃ r w',
    deleteUser req_user id w = (Return r, w')
    ∧ (status r = 400 ↔ isSelf req_user id = true)
    ∧ (status r = 500 ↔ isSelf req_user id = false ∧ castObjectId id = None)
    ∧ (status r = 404
       ↔ isSelf req_user id = false
         ∧ ∃ oid, castObjectId id = Some oid
                  ∧ findById oid (Users (db w)) = None)
    ∧ (status r = 200
       ↔ isSelf req_user id = false
         ∧ ∃ oid u, castObjectId id = Some oid
                    ∧ findById oid (Users (db w)) = Some u)
    ∧ (status r ≠ 200 → db w' = db w).
Proof.
  rewrite deleteUser_eq. cbv zeta.
  destruct (isSelf req_user id).
  { eexists _, _. split; [reflexivity|].
    split_and!; try done; split; try done; by intros [? _]. }
  destruct (castObjectId id) as [oid|].
  2:{ eexists _, _. split; [reflexivity|].
      split_and!; try done.
      - split; [done | by intros (_ & ? & ? & _)].
      - split; [done | by intros (_ & ? & ? & ? & _)].
      - intros _. simpl. by destruct w as [[] ?]. }
  destruct (findById oid (Users (db w))) as [u|] eqn:Hu.
  - eexists _, _. split; [reflexivity|].
    split_and!; try done.
    + split; [done | by intros [_ ?]].
    + split; [done | intros (_ & oid' & [= <-] & ?); congruence].
    + split; [by eauto | done].
  - eexists _, _. split; [reflexivity|].
    split_and!; try done.
    + split; [done | by intros [_ ?]].
    + split; [by eauto | done].
    + split; [done | intros (_ & oid' & u & [= <-] & ?); congruence].
    + intros _. simpl. by destruct w as [[] ?].
Qed.

(** X14: what a 200 from [deleteUser] has done: the target is no longer
    found, every other user is found as before, in the same order, and no
    game is touched - the games of the deleted user stay, with a reference
    to a user that is gone. *)
Theorem deleteUser_effect (req_user : option AuthUser) (id : string)
    (w w' : World) (r : Response) :
  deleteUser req_user id w = (Return r, w') → status r = 200 →
  ∃ oid,
    castObjectId id = Some oid
    ∧ findById oid (Users (db w')) = None
    ∧ (∀ oid', oid' ≠ oid →
       findById oid' (Users (db w')) = findById oid' (Users (db w)))
    ∧ Users (db w') `sublist_of` Users (db w)
    ∧ Games (db w') = Games (db w).
Proof.
  intros Hrun Hst. rewrite deleteUser_eq in Hrun. cbv zeta in Hrun.
  destruct (isSelf req_user id).
  { apply pair_equal_spec in Hrun as [[= <-] _]. done. }
  destruct (castObjectId id) as [oid|].
  2:{ apply pair_equal_spec in Hrun as [[= <-] _]. done. }
  destruct (findById oid (Users (db w))) as [u|] eqn:Hu.
  2:{ apply pair_equal_spec in Hrun as [[= <-] _]. done. }
  apply pair_equal_spec in Hrun as [_ <-]. exists oid. simpl.
  split_and!; try done.
  - rewrite findById_removeById. by rewrite bool_decide_eq_true_2.
  - intros oid' Hne. rewrite findById_removeById.
    by rewrite bool_decide_eq_false_2.
  - apply removeById_sublist.
Qed.

(** X15: deleting is not repeated: once a delete has been answered 200,
    a second delete of the same id by a user other than the target is
    answered 404 and changes nothing. *)
Theorem deleteUser_twice (req_user req_user2 : option AuthUser) (id : string)
    (w w' : World) (r : Response) :
  deleteUser req_user id w = (Return r, w') → status r = 200 →
  isSelf req_user2 id = false →
  ∃ w'',
    deleteUser req_user2 id w' = (Return userNotFoundResponse, w'')
    ∧ status userNotFoundResponse = 404
    ∧ db w'' = db w'.
Proof.
  intros Hrun Hst Hs2. rewrite deleteUser_eq in Hrun. cbv zeta in Hrun.
  destruct (isSelf req_user id).
  { apply pair_equal_spec in Hrun as [[= <-] _]. done. }
  destruct (castObjectId id) as [oid|] eqn:Hc.
  2:{ apply pair_equal_spec in Hrun as [[= <-] _]. done. }
  destruct (findById oid (Users (db w))) as [u|] eqn:Hu.
  2:{ apply pair_equal_spec in Hrun as [[= <-] _]. done. }
  apply pair_equal_spec in Hrun as [_ <-].
  rewrite deleteUser_eq. cbv zeta. rewrite Hs2, Hc. simpl.
  rewrite findById_removeById, bool_decide_eq_true_2 by done.
  eexists. split_and!; done.
Qed.

End UpdateDeleteMore.

(** ** How the handlers compose, and what they keep *)

Section Composition.
Context `{ObjectIds} `{BcryptCore} `{!StoreBehaviour}.

Lemma removeById_fresh oid (us : list IUser) u :
  findById oid us = None → _id u = oid → removeById oid (us ++ [u]) = us.
Proof.
  intros Hn' Hu. pose proof (proj1 (findById_None _ _) Hn') as Hn.
  clear Hn'. unfold removeById.
  rewrite List.filter_app. simpl. rewrite bool_decide_eq_true_2 by done. simpl.
  rewrite app_nil_r. induction us as [|x us IH]; simpl; [done|].
  rewrite bool_decide_eq_false_2 by (apply Hn; by left). simpl.
  f_equal. apply IH. intros y Hy. apply Hn. by right.
Qed.

(** X16: creating a user and then deleting it under its new identifier, by
    someone else, gives the users back as they were before the creation,
    and touches no game. *)
Theorem createUser_then_deleteUser (env : Env) (body : PartialUser)
    (req_user : option AuthUser) (id : string) (w w1 : World) (r : Response) :
  createUser env body w = (Return r, w1) → status r = 201 →
  castObjectId id = Some (newObjectId env) → isSelf req_user id = false →
  ∃ w2,
    deleteUser req_user id w1 = (Return deletedResponse, w2)
    ∧ status deletedResponse = 200
    ∧ Users (db w2) = Users (db w)
    ∧ Games (db w2) = Games (db w).
Proof.
  intros Hrun Hst Hc Hs.
  destruct (createUser_201 _ _ _ _ _ Hrun Hst) as (Hm & He & Hr & Hf).
  rewrite createUser_created in Hrun by done.
  apply pair_equal_spec in Hrun as [_ <-].
  unfold freshId in Hf. apply bool_decide_eq_true in Hf.
  rewrite deleteUser_eq. cbv zeta. rewrite Hs, Hc. simpl.
  rewrite findById_app_new by done.
  eexists. split; [reflexivity|]. simpl.
  by rewrite removeById_fresh.
Qed.

Lemma populate_after_delete oid (us : list IUser) (g : Game) :
  (userId g = Some oid →
   user (formatGame (populate_userId (removeById oid us) g)) = None)
  ∧ (userId g ≠ Some oid →
     formatGame (populate_userId (removeById oid us) g)
     = formatGame (populate_userId us g)).
Proof.
  unfold formatGame, populate_userId. simpl. split.
  - intros ->. rewrite findById_removeById.
    by rewrite bool_decide_eq_true_2.
  - intros Hne. destruct (userId g) as [oid'|]; [|done].
    rewrite findById_removeById.
    by rewrite bool_decide_eq_false_2 by congruence.
Qed.

(** X17: deleting a user deletes none of its games: after a delete answered
    200, every games query lists the same games as before, in the same
    order and with the same total; the games of the deleted user are now
    listed with a null user, every other item is as before. *)
Theorem deleteUser_leaves_games (req_user : option AuthUser) (id : string)
    (query : GamesQuery) (w w' : World) (r : Response) :
  deleteUser req_user id w = (Return r, w') → status r = 200 →
  ∃ oid listed,
    castObjectId id = Some oid
    ∧ Games (db w') = Games (db w)
    ∧ gamesListed query w = listing (Users (db w)) listed
    ∧ gamesListed query w' = listing (Users (db w')) listed
    ∧ Forall2 (λ before after,
                 fg_id after = fg_id before
                 ∧ (user before = None → user after = None)
                 ∧ (∀ o, user before = Some o → ref_id o = oid →
                    user after = None)
                 ∧ (∀ o, user before = Some o → ref_id o ≠ oid →
                    after = before))
              (gamesListed query w) (gamesListed query w').
Proof.
  intros Hrun Hst. rewrite deleteUser_eq in Hrun. cbv zeta in Hrun.
  destruct (isSelf req_user id).
  { apply pair_equal_spec in Hrun as [[= <-] _]. done. }
  destruct (castObjectId id) as [oid|].
  2:{ apply pair_equal_spec in Hrun as [[= <-] _]. done. }
  destruct (findById oid (Users (db w))) as [u|] eqn:Hu.
  2:{ apply pair_equal_spec in Hrun as [[= <-] _]. done. }
  apply pair_equal_spec in Hrun as [_ <-].
  rewrite !gamesListed_eq. simpl.
  exists oid,
    (if (offsetOf query <? 0)%Z then []
     else limited (offsetOf query) (limitOf query) (Games (db w))).
  split; [done|]. split; [done|].
  destruct (offsetOf query <? 0)%Z; [by repeat split; try constructor|].
  split; [done|]. split; [done|].
  unfold listing. rewrite <- !list_fmap_compose.
  apply Forall2_fmap, Forall_Forall2_diag, Forall_forall.
  intros g _. simpl.
  destruct (populate_after_delete oid (Users (db w)) g) as [Hgone Hkept].
  split; [done|].
  unfold formatGame, populate_userId in *. simpl in *.
  destruct (userId g) as [oid'|]; [|by repeat split].
  destruct (findById oid' (Users (db w))) as [u'|] eqn:Hu'; simpl.
  - pose proof (findById_Some _ _ _ Hu') as Hid'.
    split_and!; [done| |].
    + intros o [= <-] Ho. simpl in Ho. apply Hgone. congruence.
    + intros o [= <-] Ho. simpl in Ho. apply Hkept. congruence.
  - split_and!; [|done|done].
    intros _. rewrite findById_removeById, Hu'. by case_bool_decide.
Qed.

Lemma elem_of_emails (us : list IUser) (e : string) :
  e ∈ email <$> us ↔ existsb (λ u, String.eqb (email u) e) us = true.
Proof.
  rewrite list_elem_of_fmap, existsb_exists. split.
  - intros (u & -> & Hu). exists u.
    split; [by apply list_elem_of_In | apply String.eqb_refl].
  - intros (u & Hu%list_elem_of_In & He%String.eqb_eq). eauto.
Qed.

Lemma replaceById_emails oid u' (us : list IUser) :
  _id u' = oid → NoDup (_id <$> us) → NoDup (email <$> us) →
  emailTaken oid (email u') us = false →
  NoDup (email <$> replaceById oid u' us).
Proof.
  intros Hid. unfold replaceById, emailTaken.
  induction us as [|x us IH]; [done|].
  rewrite !fmap_cons, !NoDup_cons. simpl.
  intros [Hxid Hids] [Hxem Hems] [Hx Ht]%orb_false_iff.
  specialize (IH Hids Hems Ht).
  split; [|done].
  rewrite list_elem_of_fmap. intros (y & Hy & Hin).
  apply list_elem_of_fmap in Hin as (z & -> & Hz).
  destruct (bool_decide (_id x = oid)) eqn:Hxo.
  - apply bool_decide_eq_true in Hxo.
    destruct (bool_decide (_id z = oid)) eqn:Hzo.
    + apply bool_decide_eq_true in Hzo. apply Hxid.
      apply list_elem_of_fmap. exists z. split; [congruence | done].
    + apply bool_decide_eq_false in Hzo.
      apply not_true_iff_false in Ht. apply Ht. apply existsb_exists.
      exists z. split; [by apply list_elem_of_In|].
      rewrite bool_decide_eq_false_2 by done. simpl.
      apply String.eqb_eq. done.
  - simpl in Hx. destruct (bool_decide (_id z = oid)) eqn:Hzo.
    + apply String.eqb_neq in Hx. congruence.
    + apply Hxem. apply list_elem_of_fmap. exists z. split; [done|done].
Qed.

(** X18: the user handlers keep the identifiers and the emails of the
    stored users unique: when no two stored users share an identifier or an
    email, the same holds after [createUser], after [updateUser] and after
    [deleteUser], whatever they were asked and whatever they answered. *)
Theorem handlers_keep_users_unique (env : Env) (req_user : option AuthUser)
    (id : string) (body : PartialUser) (update : UpdateBody) (w : World) :
  uniqueUsers (Users (db w)) →
  uniqueUsers (Users (db (createUser env body w).2))
  ∧ uniqueUsers (Users (db (updateUser id update w).2))
  ∧ uniqueUsers (Users (db (deleteUser req_user id w).2)).
Proof.
  intros [Hids Hems]. split_and!.
  - destruct (missingField body) eqn:Hm.
    { by rewrite createUser_missing. }
    destruct (emailExists body w) eqn:He.
    { by rewrite createUser_duplicate. }
    destruct (validRole body) eqn:Hr.
    2:{ by rewrite createUser_invalid_role. }
    destruct (freshId env w) eqn:Hf.
    2:{ by rewrite createUser_id_taken. }
    rewrite createUser_created by done. simpl.
    unfold uniqueUsers. rewrite !fmap_app, !NoDup_app. simpl.
    pose proof (proj1 (freshId_spec _ _) Hf) as Hfresh.
    split; (split; [done|]); (split; [|apply NoDup_singleton]).
    + intros i Hi Hi'. apply list_elem_of_singleton in Hi'.
      apply list_elem_of_fmap in Hi as (u & -> & Hu). by apply (Hfresh u).
    + intros e Hi Hi'. apply list_elem_of_singleton in Hi'. subst e.
      apply elem_of_emails in Hi. unfold emailExists in He. congruence.
  - rewrite updateUser_eq. cbv zeta.
    destruct (castObjectId id) as [oid|]; [|done].
    destruct (castUpdate _); [|done].
    destruct (findById oid (Users (db w))) as [u|] eqn:Hu; [|done].
    destruct (updatedBy update u) as [u'|] eqn:Hu'; [|done].
    destruct (emailTaken oid _ (Users (db w))) eqn:Ht; [done|].
    simpl. pose proof (findById_Some _ _ _ Hu) as Hid.
    assert (_id u' = oid) as Hid' by (by rewrite (updatedBy_id _ _ _ Hu')).
    split.
    + by rewrite replaceById_ids.
    + by apply replaceById_emails.
  - rewrite deleteUser_eq. cbv zeta.
    destruct (isSelf req_user id); [done|].
    destruct (castObjectId id) as [oid|]; [|done].
    destruct (findById oid (Users (db w))) as [u|]; [|done].
    simpl.
    pose proof (removeById_sublist oid (Users (db w))) as Hs.
    split; (eapply sublist_NoDup; [done | by apply fmap_sublist]).
Qed.

(** Saving a document whose password path is not modified and that is not
    new leaves the stored password alone. *)
Lemma save_keeps_unmodified_password env d w :
  isModified d "password" = false → d_isNew d = false →
  storedPassword d (User_save env d w).2 = storedPassword d w.
Proof.
  intros Hm Hnew. unfold User_save. run_M.
  destruct (validate (d_fields d)); simpl; [|done].
  rewrite pre_save_unmodified by done. simpl. rewrite Hnew.
  destruct (findById (d_id d) (Users (db w))) as [u0|] eqn:Hu0; simpl;
    [|done].
  match goal with |- context [if ?c then _ else _] => destruct c end;
    simpl; [done|].
  unfold storedPassword. simpl.
  pose proof (findById_Some _ _ _ Hu0) as Hid.
  rewrite Hid, findById_replaceById by done.
  rewrite Hu0. simpl. rewrite bool_decide_eq_true_2 by done. simpl.
  unfold keep. by rewrite Hm.
Qed.

Lemma save_returns_saved env d w d' w' :
  User_save env d w = (Return d', w') →
  d_id d' = d_id d ∧ d_isNew d' = false ∧ d_modified d' = [].
Proof.
  unfold User_save. run_M. intros Hrun.
  destruct (validate (d_fields d)); simpl in Hrun; [|done].
  unfold pre_save in Hrun.
  destruct (isModified d "password"); simpl in Hrun.
  - destruct (p_password (d_fields d)); simpl in Hrun; [|done].
    destruct (d_isNew d).
    + match type of Hrun with
      | (if ?c then _ else _) _ = _ => destruct c
      end; simpl in Hrun; [done|].
      by apply pair_equal_spec in Hrun as [[= <-] _].
    + destruct (findById (d_id d) (Users (db w))); simpl in Hrun; [|done].
      match type of Hrun with
      | (if ?c then _ else _) _ = _ => destruct c
      end; simpl in Hrun; [done|].
      by apply pair_equal_spec in Hrun as [[= <-] _].
  - destruct (d_isNew d).
    + match type of Hrun with
      | (if ?c then _ else _) _ = _ => destruct c
      end; simpl in Hrun; [done|].
      by apply pair_equal_spec in Hrun as [[= <-] _].
    + destruct (findById (d_id d) (Users (db w))); simpl in Hrun; [|done].
      match type of Hrun with
      | (if ?c then _ else _) _ = _ => destruct c
      end; simpl in Hrun; [done|].
      by apply pair_equal_spec in Hrun as [[= <-] _].
Qed.

(** X19: a hash is not hashed again: saving once more the document a save
    has returned, with nothing assigned in between, leaves the stored
    password exactly as the first save left it, whatever salt the second
    save would draw and whether or not it succeeds. *)
Theorem resave_keeps_hash (env env2 : Env) (d d' : UserDocument)
    (w w' : World) :
  User_save env d w = (Return d', w') →
  storedPassword d (User_save env2 d' w').2 = storedPassword d w'.
Proof.
  intros Hrun.
  destruct (save_returns_saved _ _ _ _ _ Hrun) as (Hid & Hnew & Hmod).
  assert (isModified d' "password" = false) as Hm.
  { unfold isModified. rewrite Hmod. apply bool_decide_eq_false.
    apply not_elem_of_nil. }
  pose proof (save_keeps_unmodified_password env2 d' w' Hm Hnew) as Hk.
  unfold storedPassword in *. by rewrite Hid in Hk.
Qed.

End Composition.

(** ** Listing the users, and reading back what was written *)

Section UsersListing.
Context `{ObjectIds} `{BcryptCore} `{!StoreBehaviour}.

Lemma usersListed_eq w :
  usersListed w = (λ u, delete_password (toObject u)) <$> Users (db w).
Proof. unfold usersListed. by rewrite getAllUsers_eq. Qed.

(** X20: [getAllUsers] answers 200 with one object for each stored user, in
    the order of the store: the user's identifier, names, email, phone,
    role, points, bio and creation time, and no password. *)
Theorem getAllUsers_lists_every_user (w : World) :
  ∃ r w',
    getAllUsers w = (Return r, w')
    ∧ status r = 200
    ∧ Forall2 (λ u o,
                 o_id o = _id u ∧ o_firstName o = firstName u
                 ∧ o_lastName o = lastName u ∧ o_email o = email u
                 ∧ o_phone o = phone u ∧ o_role o = role u
                 ∧ o_points o = points u ∧ o_bio o = bio u
                 ∧ o_createdAt o = createdAt u ∧ o_password o = None)
              (Users (db w)) (payloadUsers r).
Proof.
  rewrite getAllUsers_eq. eexists _, _. split; [reflexivity|].
  split; [done|]. simpl.
  apply Forall2_fmap_r, Forall_Forall2_diag, Forall_forall.
  intros u _. by repeat split.
Qed.

Lemma findById_elem_of oid (us : list IUser) u :
  findById oid us = Some u → u ∈ us.
Proof.
  unfold findById. intros [Hin _]%find_some. by apply list_elem_of_In.
Qed.

(** X21: what was written is what is listed: the user object in a 201 of
    [createUser] and the user object in a 200 of [updateUser] are among the
    objects [getAllUsers] returns right afterwards. *)
Theorem written_users_are_listed (env : Env) (id : string)
    (body : PartialUser) (update : UpdateBody) (w : World) :
  (∀ r w', createUser env body w = (Return r, w') → status r = 201 →
     ∃ o, payloadUsers r = [o] ∧ o ∈ usersListed w')
  ∧ (∀ r w', updateUser id update w = (Return r, w') → status r = 200 →
       ∃ o, payloadUsers r = [o] ∧ o ∈ usersListed w').
Proof.
  split; intros r w' Hrun Hst; rewrite usersListed_eq.
  - destruct (createUser_201 _ _ _ _ _ Hrun Hst) as (Hm & He & Hr & Hf).
    rewrite createUser_created in Hrun by done.
    apply pair_equal_spec in Hrun as [[= <-] <-].
    eexists. split; [reflexivity|]. simpl.
    apply list_elem_of_fmap. exists (createdUser env body).
    split; [done|]. apply elem_of_app. right. by apply list_elem_of_singleton.
  - rewrite updateUser_eq in Hrun. cbv zeta in Hrun.
    destruct (castObjectId id) as [oid|].
    2:{ apply pair_equal_spec in Hrun as [[= <-] _]. done. }
    destruct (castUpdate _).
    2:{ apply pair_equal_spec in Hrun as [[= <-] _]. done. }
    destruct (findById oid (Users (db w))) as [u|] eqn:Hu.
    2:{ apply pair_equal_spec in Hrun as [[= <-] _]. done. }
    destruct (updatedBy update u) as [u'|] eqn:Hu'.
    2:{ apply pair_equal_spec in Hrun as [[= <-] _]. done. }
    destruct (emailTaken oid _ (Users (db w))).
    { apply pair_equal_spec in Hrun as [[= <-] _]. done. }
    apply pair_equal_spec in Hrun as [[= <-] <-].
    eexists. split; [reflexivity|]. simpl.
    apply list_elem_of_fmap. eexists. split; [reflexivity|].
    apply (findById_elem_of oid).
    pose proof (findById_Some _ _ _ Hu) as Hid.
    assert (_id u' = oid) as Hid' by (by rewrite (updatedBy_id _ _ _ Hu')).
    rewrite findById_replaceById by done. rewrite Hu. simpl.
    by rewrite bool_decide_eq_true_2.
Qed.

End UsersListing.

Section ToyFacts.
Local Existing Instance toyBcrypt.

Lemma string_app_assoc (a b c : string) :
  (a +:+ b) +:+ c = a +:+ (b +:+ c).
Proof.
  induction a as [|x a IH]; [done|].
  change ((String x ((a +:+ b) +:+ c)) = String x (a +:+ (b +:+ c))).
  by rewrite IH.
Qed.

Lemma lastChar_snoc (a : string) (c : ascii) :
  Toy.lastChar (a +:+ String c "") = Some c.
Proof.
  induction a as [|x a IH]; [done|].
  change (String x a +:+ String c "") with (String x (a +:+ String c "")).
  simpl. destruct a; simpl in *; done.
Qed.

Lemma flip_not_last (s : string) : Toy.lastChar s ≠ Some (Toy.flip s).
Proof.
  unfold Toy.flip. destruct (Toy.lastChar s) as [c|]; [|done].
  destruct (decide (c = "a"%char)) as [->|Hc]; [done|].
  assert (match c with
          | "a"%char => "b"%char
          | _ => "a"%char
          end = "a"%char) as ->.
  { destruct c as [[] [] [] [] [] [] [] []]; done. }
  congruence.
Qed.

Lemma toy_digestLength : digestLength.
Proof. intros salt s. reflexivity. Qed.

(** The stand-in is no identity: no string is its own hash. *)
Lemma toy_hash_differs (s rnd : string) : bcrypt.hash s 12 rnd ≠ s.
Proof.
  intros E. apply (flip_not_last s). rewrite <- E at 1.
  unfold bcrypt.hash, bcrypt.hashWithSalt.
  change (@crypt_raw toyBcrypt) with Toy.crypt_raw.
  unfold Toy.crypt_raw. rewrite <- string_app_assoc.
  apply lastChar_snoc.
Qed.

End ToyFacts.

Section Witnesses.
Local Existing Instance hexObjectIds.
Local Existing Instance toyBcrypt.
Local Existing Instance mongoStore.

Lemma createUser_alice :
  createUser envA aliceBody emptyWorld
  = (Return (createdResponse alice), worldA).
Proof. reflexivity. Qed.

(** C3 at work: the administrator Alice asks to delete her own account,
    writing its identifier in upper case: the account is deleted. *)
Lemma deleteUser_guard_is_textual_witness :
  findById "65a1b2c3d4e5f60718293a4b" (Users (db worldA)) = Some alice
  ∧ castObjectId "65A1B2C3D4E5F60718293A4B" = Some "65a1b2c3d4e5f60718293a4b"
  ∧ ∃ r w',
      deleteUser (Some {| auth_id := "65a1b2c3d4e5f60718293a4b";
                          auth_role := "admin" |})
                 "65A1B2C3D4E5F60718293A4B" worldA
      = (Return r, w')
      ∧ status r = 200
      ∧ calls w'
        = calls worldA
          ++ [Call_User_findByIdAndDelete "65A1B2C3D4E5F60718293A4B"]
      ∧ Users (db w') = [].
Proof.
  split; [reflexivity|]. split; [reflexivity|].
  destruct (deleteUser_guard_is_textual
              {| auth_id := "65a1b2c3d4e5f60718293a4b";
                 auth_role := "admin" |}
              "65A1B2C3D4E5F60718293A4B" worldA)
    as (r & w' & Hrun & _ & Hother).
  destruct (Hother "65a1b2c3d4e5f60718293a4b" alice)
    as (_ & Hst & Hcalls & Hus & _);
    [discriminate | reflexivity | reflexivity | reflexivity |].
  exists r, w'. split; [exact Hrun|]. split; [exact Hst|].
  split; [exact Hcalls|]. rewrite Hus. reflexivity.
Defined.

(** C8 at work: Alice is created with the password [secret]. *)
Lemma created_user_password_verifies_witness :
  digestLength ∧ saltLength envA
  ∧ ∃ u, findById (newObjectId envA) (Users (db worldA)) = Some u
         ∧ password u = bcrypt.hash "secret" 12 (saltRandom envA)
         ∧ comparePassword u "secret" = true
         ∧ ∀ candidate,
             comparePassword u candidate = true
             ↔ bcrypt.hashWithSalt candidate
                 (bcrypt.genSalt 12 (saltRandom envA)) = password u.
Proof.
  split; [exact toy_digestLength|]. split; [reflexivity|].
  apply (created_user_password_verifies envA aliceBody emptyWorld worldA
           (createdResponse alice) "secret").
  - exact toy_digestLength.
  - reflexivity.
  - reflexivity.
  - reflexivity.
  - reflexivity.
Defined.


(** C1 at work: Alice's password hash is overwritten by the empty
    string. *)
Lemma updateUser_empty_password_overwrites_witness :
  comparePassword alice "secret" = true
  ∧ ∃ r w' u',
      updateUser "65A1B2C3D4E5F60718293A4B" (plainBody (passwordOnly ""))
        worldA
      = (Return r, w')
      ∧ status r = 200
      ∧ calls w'
        = calls worldA
          ++ [Call_User_findByIdAndUpdate "65A1B2C3D4E5F60718293A4B"
                (plainBody (passwordOnly ""))]
      ∧ findById "65a1b2c3d4e5f60718293a4b" (Users (db w')) = Some u'
      ∧ password u' = ""
      ∧ ∀ candidate, comparePassword u' candidate = false.
Proof.
  split; [reflexivity|].
  apply (updateUser_empty_password_overwrites (H := hexObjectIds)
           "65A1B2C3D4E5F60718293A4B" "65a1b2c3d4e5f60718293a4b"
           alice worldA).
  - reflexivity.
  - reflexivity.
  - intros u' Hu' _. simpl in Hu'.
    apply list_elem_of_singleton in Hu'. by rewrite Hu'.
Defined.

(** C4 at work: page 2 of 25 games, ten to a page. *)
Lemma getAllGames_paginates_witness :
  exactPaging page2
  ∧ JS.isSafeInteger (Z.of_nat (List.length (Games (db worldG))))
  ∧ 0 ≤ offsetOf page2 ∧ 0 < limitOf page2
  ∧ ∃ items pagination w',
      getAllGames page2 worldG
      = (Return (respond 200 "Historique des parties récupéré avec succès"
                   (Some (GamesData items pagination))), w')
      ∧ List.length items = 10%nat
      ∧ fg_createdAt <$> items = [15; 14; 13; 12; 11; 10; 9; 8; 7; 6]
      ∧ total pagination = 25
      ∧ page pagination = 2
      ∧ pages pagination = 3
      ∧ limit pagination = 10.
Proof.
  assert (exactPaging page2) as Hex.
  { unfold exactPaging, JS.isSafeInteger. by vm_compute. }
  assert (JS.isSafeInteger (Z.of_nat (List.length (Games (db worldG)))))
    as Hcount.
  { unfold JS.isSafeInteger. by vm_compute. }
  assert (0 ≤ offsetOf page2) as Ho by (by vm_compute).
  assert (0 < limitOf page2) as Hl by (by vm_compute).
  split; [exact Hex|]. split; [exact Hcount|].
  split; [exact Ho|]. split; [exact Hl|].
  destruct (getAllGames_paginates page2 worldG Hex Hcount)
    as (r & w' & Hrun & _ & _ & _ & _ & _ & _ & _ & _ & Hserved).
  destruct (Hserved Ho)
    as (items & pg & Hr & Htotal & Hpage & Hlimit & Hpages & Hpos & _).
  destruct (Hpos Hl) as (Hitems & _).
  exists items, pg, w'. split; [by rewrite Hrun, Hr|].
  rewrite Hpages, Htotal, Hitems, Hpage, Hlimit.
  repeat split; reflexivity.
Defined.

(** C7 at work: page 2 of the 25 games. *)
Lemma dangling_owner_is_null_witness :
  exactPaging page2 ∧ 0 ≤ offsetOf page2
  ∧ ∃ r w' items pg,
      getAllGames page2 worldG = (Return r, w')
      ∧ status r = 200
      ∧ data (json r) = Some (GamesData items pg)
      ∧ List.length items = 10%nat.
Proof.
  assert (exactPaging page2) as Hex.
  { unfold exactPaging, JS.isSafeInteger. by vm_compute. }
  assert (0 ≤ offsetOf page2) as Ho by (by vm_compute).
  split; [exact Hex|]. split; [exact Ho|].
  destruct (dangling_owner_is_null page2 worldG Hex Ho)
    as (r & w' & items & pg & Hrun & Hst & Hdata & _ & _ & Hlen & _).
  exists r, w', items, pg.
  split; [exact Hrun|]. split; [exact Hst|]. split; [exact Hdata|].
  rewrite Hlen. reflexivity.
Defined.

(** The first four games of that page have no owner, an owner that is
    gone, Alice, and no owner: they are listed with a null user, next to
    Alice's. *)
Example listing_with_dangling_owners :
  (λ g, userId g)
    <$> take 4 (limited (offsetOf page2) (limitOf page2) (Games (db worldG)))
  = [None; Some "ffffffffffffffffffffffff"; Some "65a1b2c3d4e5f60718293a4b";
     None]
  ∧ ∃ items pagination w',
      getAllGames page2 worldG
      = (Return (respond 200 "Historique des parties récupéré avec succès"
                   (Some (GamesData items pagination))), w')
      ∧ (λ item, ref_firstName <$> user item) <$> take 4 items
        = [None; None; Some "Alice"; None].
Proof. split; [reflexivity|]. eexists _, _, _. split; reflexivity. Qed.

(** C9 at work: renaming Alice leaves her creation time alone. *)
Lemma createdAt_changes_only_when_sent_witness :
  b_other (plainBody renameBody) = None
  ∧ p_createdAt (b_fields (plainBody renameBody)) = None
  ∧ createdAt
      <$> findById "65a1b2c3d4e5f60718293a4b"
            (Users (db (updateUser aliceId (plainBody renameBody)
                          worldA).2))
    = Some 1700000000000.
Proof.
  split; [reflexivity|]. split; [reflexivity|].
  destruct (createdAt_changes_only_when_sent envA aliceId aliceBody
              (plainBody renameBody) worldA) as (_ & Hframe & _).
  rewrite Hframe; reflexivity.
Defined.

End Witnesses.

Section Counterexamples.
Local Existing Instance hexObjectIds.
Local Existing Instance toyBcrypt.
Local Existing Instance mongoStore.

(** C4 fails as stated: on an empty store, the request for page -1 is
    answered with an error (the offset is -20, which the store rejects),
    not with an empty list. *)
Lemma getAllGames_negative_page_fails :
  Games (db emptyWorld) = []
  ∧ offsetOf pageMinus1 = -20
  ∧ ∃ r w',
      getAllGames pageMinus1 emptyWorld = (Return r, w')
      ∧ status r = 500
      ∧ data (json r) = None.
Proof. split; [done|]. split; [done|]. eexists _, _. by split. Qed.


(** C9 fails as stated: an update whose body carries [createdAt] changes
    the stored creation timestamp of the user. *)
Lemma updateUser_overwrites_createdAt :
  createdAt <$> findById "65a1b2c3d4e5f60718293a4b" (Users (db worldA))
  = Some 1700000000000
  ∧ status_of (updateUser "65a1b2c3d4e5f60718293a4b"
                 (plainBody createdAtBody) worldA).1 = Some 200
  ∧ createdAt
      <$> findById "65a1b2c3d4e5f60718293a4b"
            (Users (db (updateUser "65a1b2c3d4e5f60718293a4b"
                          (plainBody createdAtBody) worldA).2))
    = Some 5.
Proof. repeat split; reflexivity. Qed.

(** The same through an update operator: a body whose only key is a [$set]
    of [createdAt] rewrites the creation timestamp as well, on a store that
    applies [$set] as MongoDB does. *)
Example updateUser_set_overwrites_createdAt :
  status_of (updateUser "65a1b2c3d4e5f60718293a4b" setCreatedAtBody
               worldA).1 = Some 200
  ∧ createdAt
      <$> findById "65a1b2c3d4e5f60718293a4b"
            (Users (db (updateUser "65a1b2c3d4e5f60718293a4b"
                          setCreatedAtBody worldA).2))
    = Some 5.
Proof. repeat split; reflexivity. Qed.

(** And a password in a [$set] is not looked at by the handler: it is
    stored as it is. *)
Example updateUser_set_overwrites_password :
  status_of (updateUser "65a1b2c3d4e5f60718293a4b" setPasswordBody
               worldA).1 = Some 200
  ∧ password
      <$> findById "65a1b2c3d4e5f60718293a4b"
            (Users (db (updateUser "65a1b2c3d4e5f60718293a4b"
                          setPasswordBody worldA).2))
    = Some "plain".
Proof. repeat split; reflexivity. Qed.

End Counterexamples.

Section MoreWitnesses.
Local Existing Instance hexObjectIds.
Local Existing Instance toyBcrypt.
Local Existing Instance mongoStore.

(** X1 at work: page 2 of the games. *)
Lemma listings_read_only_witness :
  exactPaging page2
  ∧ ∃ rg wg,
      getAllGames page2 worldG = (Return rg, wg)
      ∧ db wg = db worldG
      ∧ calls wg = [Call_Game_find 10 10; Call_Game_countDocuments].
Proof.
  assert (exactPaging page2) as Hex.
  { unfold exactPaging, JS.isSafeInteger. by vm_compute. }
  split; [exact Hex|].
  destruct (listings_read_only page2 worldG)
    as (rg & wg & ru & wu & skip & lim & Hrun & _ & Hdb & _ & Hcalls
        & Hpin & _).
  destruct (Hpin Hex) as [-> ->].
  exists rg, wg. split; [exact Hrun|]. split; [exact Hdb|]. exact Hcalls.
Defined.

(** X2 at work: page 0 and limit 0 are page 1 and limit 10. *)
Lemma paging_never_zero_witness :
  JS.parseInt (q_page zeroQuery) = Some 0
  ∧ JS.parseInt (q_limit zeroQuery) = Some 0
  ∧ JS.isSafeInteger (limitOf zeroQuery)
  ∧ ∃ r w',
      getAllGames zeroQuery worldG = (Return r, w')
      ∧ calls w' = [Call_Game_find 0 10; Call_Game_countDocuments].
Proof.
  assert (JS.isSafeInteger (limitOf zeroQuery)) as Hsafe.
  { unfold JS.isSafeInteger. by vm_compute. }
  split; [reflexivity|]. split; [reflexivity|]. split; [exact Hsafe|].
  destruct (paging_never_zero zeroQuery worldG)
    as (r & w' & skip & lim & Hrun & Hcalls & _ & Hskip & Hlim & _).
  rewrite (Hskip eq_refl Hsafe), (Hlim eq_refl) in Hcalls.
  exists r, w'. split; [exact Hrun | exact Hcalls].
Defined.

(** X3 at work: pages 3 and 4 of the 25 games, ten to a page. *)
Lemma getAllGames_page_size_witness :
  acceptedPaging (limit10 "3") ∧ acceptedPaging page4
  ∧ List.length (gamesListed (limit10 "3") worldG) = 5%nat
  ∧ gamesListed page4 worldG = [].
Proof.
  assert (acceptedPaging (limit10 "3")) as H3.
  { unfold acceptedPaging, JS.isSafeInteger. by vm_compute. }
  assert (acceptedPaging page4) as H4.
  { unfold acceptedPaging, JS.isSafeInteger. by vm_compute. }
  split; [exact H3|]. split; [exact H4|]. split.
  - destruct (getAllGames_page_size (limit10 "3") worldG H3)
      as (r & w' & Hrun & _ & Hlen & _).
    unfold gamesListed. rewrite Hrun. simpl. rewrite Hlen. reflexivity.
  - destruct (getAllGames_page_size page4 worldG H4)
      as (r & w' & Hrun & _ & _ & _ & Hempty).
    unfold gamesListed. rewrite Hrun. simpl. apply Hempty. by vm_compute.
Defined.

(** X5 at work: the three pages of the 25 games. *)
Lemma getAllGames_pages_cover_witness :
  NoDup (g_createdAt <$> Games (db worldG))
  ∧ ∃ sorted,
      List.concat ((λ q, gamesListed q worldG) <$> threePages)
      = listing (Users (db worldG)) sorted
      ∧ sorted ≡ₚ Games (db worldG)
      ∧ List.length sorted = 25%nat.
Proof.
  assert (NoDup (g_createdAt <$> Games (db worldG))) as Hnd.
  { apply (bool_decide_unpack _). by vm_compute. }
  split; [exact Hnd|].
  destruct (getAllGames_pages_cover 10 threePages worldG)
    as (sorted & Hall & _ & Hperm & _).
  - lia.
  - unfold JS.isSafeInteger. by vm_compute.
  - exact Hnd.
  - intros i q Hq.
    destruct i as [|[|[|i]]]; simpl in Hq;
      [injection Hq as <-; split; reflexivity ..| discriminate].
  - by vm_compute.
  - exists sorted. split; [exact Hall|]. split; [exact Hperm|].
    by rewrite (Permutation_length Hperm).
Defined.

(** X7 at work: the points, the bio and the creation time that Bob's body
    carries make no difference. *)
Lemma createUser_reads_six_fields_witness :
  sameCreateFields bobBody bobSixFields
  ∧ createUser envB bobBody worldA = createUser envB bobSixFields worldA.
Proof.
  assert (sameCreateFields bobBody bobSixFields) as Hs
    by (repeat split; reflexivity).
  split; [exact Hs|].
  exact (createUser_reads_six_fields envB bobBody bobSixFields worldA Hs).
Defined.

(** X8 at work: Bob asked for a million points and got none. *)
Lemma createUser_stored_record_witness :
  p_points bobBody = Some 1000000
  ∧ ∃ u, findById bobId (Users (db worldAB)) = Some u
         ∧ firstName u = "Bob" ∧ role u = "admin" ∧ points u = 0
         ∧ bio u = None ∧ createdAt u = now envB.
Proof.
  split; [reflexivity|].
  destruct (createUser_stored_record envB bobBody worldA worldAB
              (createdResponse bob))
    as (u & _ & Hfind & _ & Hfn & _ & _ & _ & _ & _ & _ & _ & _ & _ & Hrole
        & Hpoints & Hbio & Hcreated & _).
  - reflexivity.
  - reflexivity.
  - exists u. split; [exact Hfind|].
    split; [by injection Hfn as <-|].
    split; [by apply Hrole|]. by repeat split.
Defined.

(** X9 at work: a second Alice, under another name, is refused. *)
Lemma createUser_twice_conflicts_witness :
  ∃ w'',
    createUser envB (with_password (Some "other") aliceBody) worldA
    = (Return duplicateEmailResponse, w'')
    ∧ status duplicateEmailResponse = 400
    ∧ db w'' = db worldA.
Proof.
  apply (createUser_twice_conflicts envA envB aliceBody
           (with_password (Some "other") aliceBody) emptyWorld worldA
           (createdResponse alice)).
  - reflexivity.
  - reflexivity.
  - unfold requiredMissing, absentOrEmpty. simpl.
    intros [[|]|[[|]|[[|]|[[|]|[|]]]]]; discriminate.
  - reflexivity.
Defined.




(** X14 at work: Alice is deleted, her games stay. *)
Lemma deleteUser_effect_witness :
  findById aliceId (Users (db worldGd)) = None
  ∧ Games (db worldGd) = Games (db worldG).
Proof.
  destruct (deleteUser_effect (Some admin) aliceId worldG worldGd
              deletedResponse)
    as (oid & Hc & Hgone & _ & _ & Hgames).
  - reflexivity.
  - reflexivity.
  - injection Hc as <-. split; [exact Hgone | exact Hgames].
Defined.

(** X15 at work: Alice is deleted a second time. *)
Lemma deleteUser_twice_witness :
  ∃ w'',
    deleteUser None aliceId worldGd = (Return userNotFoundResponse, w'')
    ∧ status userNotFoundResponse = 404
    ∧ db w'' = db worldGd.
Proof.
  apply (deleteUser_twice (Some admin) None aliceId worldG worldGd
           deletedResponse).
  - reflexivity.
  - reflexivity.
  - reflexivity.
Defined.

(** X16 at work: Bob is created and deleted again. *)
Lemma createUser_then_deleteUser_witness :
  ∃ w2,
    deleteUser (Some admin) bobId worldAB = (Return deletedResponse, w2)
    ∧ status deletedResponse = 200
    ∧ Users (db w2) = Users (db worldA)
    ∧ Games (db w2) = Games (db worldA).
Proof.
  apply (createUser_then_deleteUser envB bobBody (Some admin) bobId worldA
           worldAB (createdResponse bob)).
  - reflexivity.
  - reflexivity.
  - reflexivity.
  - reflexivity.
Defined.

(** X17 at work: page 2 of the games before and after Alice is deleted. *)
Lemma deleteUser_leaves_games_witness :
  List.length (gamesListed page2 worldGd)
  = List.length (gamesListed page2 worldG)
  ∧ Games (db worldGd) = Games (db worldG).
Proof.
  destruct (deleteUser_leaves_games (Some admin) aliceId page2 worldG worldGd
              deletedResponse)
    as (oid & listed & _ & Hgames & _ & _ & Hitems).
  - reflexivity.
  - reflexivity.
  - split; [|exact Hgames]. symmetry. exact (Forall2_length _ _ _ Hitems).
Defined.

(** X18 at work: Alice alone, then Alice and Bob. *)
Lemma handlers_keep_users_unique_witness :
  uniqueUsers (Users (db worldA)) ∧ uniqueUsers (Users (db worldAB)).
Proof.
  assert (uniqueUsers (Users (db worldA))) as Hu.
  { split; apply NoDup_singleton. }
  split; [exact Hu|].
  exact (proj1 (handlers_keep_users_unique envB None aliceId bobBody
                  (plainBody renameBody) worldA Hu)).
Defined.

(** X19 at work: the document of Alice is saved twice. *)
Lemma resave_keeps_hash_witness :
  storedPassword aliceDoc (User_save envB savedAliceDoc worldS).2
  = storedPassword aliceDoc worldS.
Proof.
  apply (resave_keeps_hash envA envB aliceDoc savedAliceDoc emptyWorld
           worldS).
  reflexivity.
Defined.

End MoreWitnesses.
